(** * IP-info retrieval pipeline of [main.py]

    A shallow embedding of the command-line tool's pipeline: the cache
    store ([load_cache], [save_cache]), the address resolver
    ([get_ip_address]) and the geolocation lookup ([get_ip_info]), followed
    by the properties the specification states about them.

    Python values are modelled as follows.
    - A JSON document (what [json.loads] and [resp.json()] return) is a
      value of [json]; a Python [dict] with string keys is a [gmap string].
    - Numbers, and the readings of [time.time()], are exact rationals.
    - The cache file, when it exists, holds a document of the shape
      [save_cache] writes: a dict from IP address to
      [{"timestamp": number, "info": dict}].
    - The process environment (cache file, clock, remote services, the
      log of [requests.get] calls and the text sent to stderr) is a
      [World], threaded through a state-and-exception monad [M].  A remote
      service is a function of the request: within one call of the
      pipeline no request is issued twice. *)

From Stdlib Require Import QArith Qcanon.
From stdpp Require Import gmap strings list fin_maps pretty numbers.

#[local] Set Warnings "-register-all".
#[local] Open Scope string_scope.
#[local] Open Scope list_scope.

(** ** JSON values and Python truthiness *)

Inductive json : Type :=
  | JNull
  | JBool (b : bool)
  | JNum (q : Qc)
  | JStr (s : string)
  | JArr (l : list json)
  | JObj (m : gmap string json).

(** [bool(v)] for a JSON value: [None], [False], zero and the empty string,
    list and dict are falsy. *)
Definition truthy (v : json) : bool :=
  match v with
  | JNull => false
  | JBool b => b
  | JNum q => negb (bool_decide (q = 0%Qc))
  | JStr s => negb (bool_decide (s = EmptyString))
  | JArr l => negb (bool_decide (l = []))
  | JObj m => negb (bool_decide (m = ∅))
  end.

(** [x or y]. *)
Definition py_or (x y : json) : json := if truthy x then x else y.

(** [d.get(k)] on a dict: a missing key reads as [None]. *)
Definition dict_get (d : gmap string json) (k : string) : json :=
  default JNull (d !! k).

(** Truthiness of a string ([if proxy]) and of a dict ([if cached]). *)
Definition str_truthy (s : string) : bool := negb (bool_decide (s = EmptyString)).
Definition dict_truthy (d : gmap string json) : bool := negb (bool_decide (d = ∅)).

(** [str(v)] inside an f-string.  A [str] formats as itself; the rendering
    of the other JSON values is left to the Python runtime. *)
Class PyFormat := py_repr : json → string.

Definition py_str {fmt : PyFormat} (v : json) : string :=
  match v with
  | JStr s => s
  | _ => py_repr v
  end.

(** ** Data model of the cache *)

(** A GeoRecord is the dict handed to [save_cache]; a cache entry is
    [{"timestamp": ..., "info": ...}]; the cache file holds a dict from IP
    address to entry. *)
Record CacheEntry := { timestamp : Qc; info : gmap string json }.

Definition CACHE_TTL : Qc := Q2Qc (inject_Z (24 * 3600)).

(** ** HTTP: requests, responses, exceptions *)

(** The arguments of one [requests.get(url, proxies=, verify=, timeout=)]. *)
Record Request := {
  req_url : string;
  req_proxies : option (gmap string string);
  req_verify : bool;
  req_timeout : Z
}.

Record Response := {
  resp_url : string;
  status_code : Z;
  reason : string;
  text : string;
  json_body : option json   (* [None]: the body is not a JSON document *)
}.

(** The exceptions that occur.  [HTTPError] is a subclass of
    [RequestException]; [RequestException msg] stands for the remaining
    subclasses (connection, timeout, TLS and JSON decoding errors). *)
Inductive exn : Type :=
  | HTTPError (msg : string) (response : option Response)
  | RequestException (msg : string)
  | AttributeError (msg : string)
  | FileNotFoundError
  | Exit (code : Z).

(** [isinstance(e, requests.RequestException)]. *)
Definition is_RequestException (e : exn) : bool :=
  match e with
  | HTTPError _ _ | RequestException _ => true
  | _ => false
  end.

(** [str(e)]. *)
Definition exn_str (e : exn) : string :=
  match e with
  | HTTPError msg _ | RequestException msg | AttributeError msg => msg
  | FileNotFoundError => "[Errno 2] No such file or directory"
  | Exit code => pretty code
  end.

(** ** The environment and the monad *)

Record World := {
  cache_file : option (gmap string CacheEntry);  (* [None]: no CACHE_FILE *)
  clock : nat → Qc;                (* the n-th reading of [time.time()] *)
  ticks : nat;                     (* readings taken so far *)
  network : Request → exn + Response;  (* what [requests.get] does *)
  calls : list Request;            (* [requests.get] calls, oldest first *)
  stderr : list string             (* lines echoed with [err=True] *)
}.

Inductive result (A : Type) : Type :=
  | Returns (a : A)
  | Raises (e : exn).
Arguments Returns {A} a.
Arguments Raises {A} e.

Definition M (A : Type) : Type := World → result A * World.

Definition ret {A} (a : A) : M A := λ w, (Returns a, w).
Definition raise {A} (e : exn) : M A := λ w, (Raises e, w).

Definition bind {A B} (m : M A) (k : A → M B) : M B := λ w,
  match m w with
  | (Returns a, w') => k a w'
  | (Raises e, w') => (Raises e, w')
  end.

(** [try: body  except ...: handler]; a handler re-raises what it does not
    catch.  The effects of [body] up to the exception are kept. *)
Definition try_except {A} (body : M A) (handler : exn → M A) : M A := λ w,
  match body w with
  | (Returns a, w') => (Returns a, w')
  | (Raises e, w') => handler e w'
  end.

#[global] Instance M_ret : MRet M := @ret.
#[global] Instance M_bind : MBind M := λ A B k m, bind m k.

(** *** Primitive effects *)

Definition set_cache_file (f : option (gmap string CacheEntry)) (w : World) : World :=
  {| cache_file := f; clock := clock w; ticks := ticks w;
     network := network w; calls := calls w; stderr := stderr w |}.

Definition tick (w : World) : World :=
  {| cache_file := cache_file w; clock := clock w; ticks := S (ticks w);
     network := network w; calls := calls w; stderr := stderr w |}.

Definition log_call (r : Request) (w : World) : World :=
  {| cache_file := cache_file w; clock := clock w; ticks := ticks w;
     network := network w; calls := calls w ++ [r]; stderr := stderr w |}.

Definition log_stderr (s : string) (w : World) : World :=
  {| cache_file := cache_file w; clock := clock w; ticks := ticks w;
     network := network w; calls := calls w; stderr := stderr w ++ [s] |}.

(** [CACHE_FILE.exists()]. *)
Definition cache_file_exists : M bool := λ w,
  (Returns (bool_decide (is_Some (cache_file w))), w).

(** [json.loads(CACHE_FILE.read_text())]. *)
Definition cache_file_read : M (gmap string CacheEntry) := λ w,
  match cache_file w with
  | Some data => (Returns data, w)
  | None => (Raises FileNotFoundError, w)
  end.

(** [CACHE_FILE.parent.mkdir(parents=True, exist_ok=True)] followed by
    [CACHE_FILE.write_text(json.dumps(data))]. *)
Definition cache_file_write (data : gmap string CacheEntry) : M unit := λ w,
  (Returns (), set_cache_file (Some data) w).

(** [time.time()]. *)
Definition time_time : M Qc := λ w, (Returns (clock w (ticks w)), tick w).

(** [typer.echo(msg, err=True)]. *)
Definition echo_err (msg : string) : M unit := λ w, (Returns (), log_stderr msg w).

(** [requests.get(url, proxies=proxies, verify=verify, timeout=timeout)]. *)
Definition requests_get (url : string) (proxies : option (gmap string string))
    (verify : bool) (timeout : Z) : M Response := λ w,
  let r := {| req_url := url; req_proxies := proxies;
              req_verify := verify; req_timeout := timeout |} in
  match network w r with
  | inr resp => (Returns resp, log_call r w)
  | inl e => (Raises e, log_call r w)
  end.

(** [resp.raise_for_status()]: statuses 400-599 raise [HTTPError] carrying
    the response. *)
Definition http_error_msg (resp : Response) : string :=
  let c := status_code resp in
  if bool_decide (400 ≤ c < 500)%Z then
    pretty c +:+ " Client Error: " +:+ reason resp +:+ " for url: " +:+ resp_url resp
  else if bool_decide (500 ≤ c < 600)%Z then
    pretty c +:+ " Server Error: " +:+ reason resp +:+ " for url: " +:+ resp_url resp
  else EmptyString.

Definition raise_for_status (resp : Response) : M unit :=
  if str_truthy (http_error_msg resp)
  then raise (HTTPError (http_error_msg resp) (Some resp))
  else mret ().

(** [resp.json()]. *)
Definition resp_json (resp : Response) : M json :=
  match json_body resp with
  | Some v => ret v
  | None => raise (RequestException "Expecting value: line 1 column 1 (char 0)")
  end.

(** [v.get]: only a dict has the method. *)
Definition as_dict (v : json) : M (gmap string json) :=
  match v with
  | JObj d => ret d
  | _ => raise (AttributeError "object has no attribute 'get'")
  end.

(** ** Cache store *)

Definition load_cache (ip_address : string) : M (option (gmap string json)) :=
  file_exists ← cache_file_exists;
  if negb file_exists then mret None else
  data ← cache_file_read;
  match data !! ip_address with
  | None => mret None
  | Some entry =>
      now ← time_time;
      if bool_decide (CACHE_TTL < now - timestamp entry)%Qc then mret None
      else mret (Some (info entry))
  end.

Definition save_cache (ip_address : string) (info : gmap string json) : M unit :=
  file_exists ← cache_file_exists;
  data ← (if file_exists : bool then cache_file_read else mret ∅);
  now ← time_time;
  cache_file_write (<[ip_address := {| timestamp := now; info := info |}]> data).

(** ** Address resolver *)

(** [proxies = {'http': proxy, 'https': proxy} if proxy else None]. *)
Definition make_proxies (proxy : option string) : option (gmap string string) :=
  match proxy with
  | Some p => if str_truthy p then Some {[ "http" := p; "https" := p ]} else None
  | None => None
  end.

(** [str.isspace] on the ASCII range, and [str.strip()]. *)
Definition is_space (a : Ascii.ascii) : bool :=
  let n := Ascii.nat_of_ascii a in
  bool_decide (9 ≤ n ≤ 13)%nat || bool_decide (28 ≤ n ≤ 32)%nat.

Fixpoint lstrip (s : string) : string :=
  match s with
  | String a s' => if is_space a then lstrip s' else s
  | EmptyString => EmptyString
  end.

Definition strip (s : string) : string :=
  String.rev (lstrip (String.rev (lstrip s))).

(** [str(last_error)], where [last_error] starts as [None]. *)
Definition last_error_str (last_error : option exn) : string :=
  match last_error with
  | Some e => exn_str e
  | None => "None"
  end.

(** The [for url in urls] loop: [inl ip] when an endpoint answers (the
    [return] inside the loop), [inr last_error] when the list is exhausted. *)
Fixpoint try_urls (urls : list string) (proxies : option (gmap string string))
    (last_error : option exn) : M (string + option exn) :=
  match urls with
  | [] => mret (inr last_error)
  | url :: urls' =>
      try_except
        (resp ← requests_get url proxies false 5;
         _ ← raise_for_status resp;
         mret (inl (strip (text resp))))
        (λ e, if is_RequestException e
              then try_urls urls' proxies (Some e)
              else raise e)
  end.

Definition ipv6_unsupported_msg : string :=
  "Unable to retrieve an IPv6 address: your environment does not appear to support IPv6 or DNS resolution failed.".

Definition get_ip_address (ip_type : string) (proxy : option string) : M string :=
  if negb (bool_decide (ip_type ∈ ["ipv4"; "ipv6"])) then
    _ ← echo_err "Error: invalid IP type specified. Must be 'ipv4' or 'ipv6'.";
    raise (Exit 1)
  else
    let proxies := make_proxies proxy in
    let urls :=
      if bool_decide (ip_type = "ipv4") then ["https://api.ipify.org"]
      else ["https://api6.ipify.org"; "https://ipv6.icanhazip.com"] in
    r ← try_urls urls proxies None;
    match r with
    | inl ip => mret ip
    | inr last_error =>
        _ ← (if bool_decide (ip_type = "ipv6")
             then echo_err ipv6_unsupported_msg
             else echo_err ("Error fetching IPv4 address: " +:+ last_error_str last_error));
        raise (Exit 1)
    end.

(** ** Geolocation lookup *)

Definition primary_url (ip_address : string) : string :=
  "https://ipapi.co/" +:+ ip_address +:+ "/json/".

Definition fallback_url (ip_address : string) : string :=
  "https://geolocation-db.com/json/" +:+ ip_address +:+ "&position=true".

(** The dict built from the secondary provider's answer [fbdata]. *)
Definition fallback_record (fbdata : gmap string json) : gmap string json :=
  {[ "country_name" :=
       py_or (dict_get fbdata "country_name")
             (py_or (dict_get fbdata "country") (JStr "N/A"));
     "city" := py_or (dict_get fbdata "city") (JStr "N/A");
     "latitude" := py_or (dict_get fbdata "latitude") (JNum 0);
     "longitude" := py_or (dict_get fbdata "longitude") (JNum 0);
     "org" := py_or (dict_get fbdata "IPv4") (JStr "N/A");
     "asn" := JStr "N/A" ]}.

(** [e.response is not None and e.response.status_code == 429]. *)
Definition is_rate_limit (response : option Response) : bool :=
  match response with
  | Some r => bool_decide (status_code r = 429%Z)
  | None => false
  end.

Section GeoLookup.
Context {fmt : PyFormat}.

(** The body of the outer [try]. *)
Definition query_primary (ip_address : string)
    (proxies : option (gmap string string)) : M (gmap string json) :=
  resp ← requests_get (primary_url ip_address) proxies false 5;
  _ ← raise_for_status resp;
  v ← resp_json resp;
  data ← as_dict v;
  if truthy (dict_get data "error") then
    _ ← echo_err ("API error: " +:+ py_str (dict_get data "error"));
    raise (Exit 1)
  else mret data.

(** The body of the inner [try], on the rate-limit path. *)
Definition query_fallback (ip_address : string)
    (proxies : option (gmap string string)) : M (gmap string json) :=
  fb ← requests_get (fallback_url ip_address) proxies false 5;
  _ ← raise_for_status fb;
  v ← resp_json fb;
  fbdata ← as_dict v;
  mret (fallback_record fbdata).

(** The two [except] clauses of the outer [try]. *)
Definition on_primary_error (ip_address : string)
    (proxies : option (gmap string string)) (e : exn) : M (gmap string json) :=
  match e with
  | HTTPError _ response =>
      if is_rate_limit response then
        _ ← echo_err "Rate limit reached on ipapi.co, using fallback...";
        try_except (query_fallback ip_address proxies)
          (λ e2, if is_RequestException e2 then
                   _ ← echo_err ("Fallback service error: " +:+ exn_str e2);
                   raise (Exit 1)
                 else raise e2)
      else
        _ ← echo_err ("Error fetching IP information: " +:+ exn_str e);
        raise (Exit 1)
  | RequestException _ =>
      _ ← echo_err ("Network error fetching IP information: " +:+ exn_str e);
      raise (Exit 1)
  | _ => raise e
  end.

(** The whole [try] statement: the value bound to [data]. *)
Definition lookup_providers (ip_address : string)
    (proxies : option (gmap string string)) : M (gmap string json) :=
  try_except (query_primary ip_address proxies)
             (on_primary_error ip_address proxies).

(** Everything after the cache check. *)
Definition fetch_ip_info (ip_address : string) (proxy : option string)
    : M (gmap string json) :=
  let proxies := make_proxies proxy in
  data ← lookup_providers ip_address proxies;
  _ ← save_cache ip_address data;
  mret data.

Definition get_ip_info (ip_address : string) (proxy : option string)
    (skip_cache : bool) : M (gmap string json) :=
  if negb skip_cache then
    cached ← load_cache ip_address;
    match cached with
    | Some cached_info =>
        if dict_truthy cached_info then mret cached_info
        else fetch_ip_info ip_address proxy
    | None => fetch_ip_info ip_address proxy
    end
  else fetch_ip_info ip_address proxy.

End GeoLookup.

(** ** The command *)

(** [str.upper()] on the ASCII range: the letters a-z are mapped, every
    other byte is left as it is. *)
Definition upper_ascii (a : Ascii.ascii) : Ascii.ascii :=
  let n := Ascii.nat_of_ascii a in
  if bool_decide (97 ≤ n ≤ 122)%nat then Ascii.ascii_of_nat (n - 32) else a.

Fixpoint upper (s : string) : string :=
  match s with
  | String a s' => String (upper_ascii a) (upper s')
  | EmptyString => EmptyString
  end.

(** The command also writes to stdout: its state is the world together
    with the lines echoed there. *)
Record Console := { env : World; stdout : list string }.

Definition C (A : Type) : Type := Console → result A * Console.

#[global] Instance C_ret : MRet C := λ A a c, (Returns a, c).
#[global] Instance C_bind : MBind C := λ A B k m c,
  match m c with
  | (Returns a, c') => k a c'
  | (Raises e, c') => (Raises e, c')
  end.

(** A call into the pipeline. *)
Definition lift {A} (m : M A) : C A := λ c,
  let (r, w') := m (env c) in (r, {| env := w'; stdout := stdout c |}).

(** [typer.echo(msg)]. *)
Definition echo (msg : string) : C unit := λ c,
  (Returns (), {| env := env c; stdout := stdout c ++ [msg] |}).

(** [if s] on an [Optional[str]] argument. *)
Definition opt_truthy (s : option string) : bool :=
  match s with
  | Some s => str_truthy s
  | None => false
  end.

Definition report_header : string :=
  String (Ascii.ascii_of_nat 10) "Geolocation and ISP information:".

Section Command.
Context {fmt : PyFormat}.

(** [info.get(k, 'N/A')] inside an f-string. *)
Definition field_text (info : gmap string json) (k : string) : string :=
  py_str (default (JStr "N/A") (info !! k)).

Definition main (ip_type : string) (target_ip proxy : option string)
    (no_cache : bool) : C unit :=
  _ ← (if opt_truthy proxy
       then echo ("Using proxy: " +:+ default EmptyString proxy)
       else mret ());
  ip ← (if opt_truthy target_ip then
          let ip := default EmptyString target_ip in
          _ ← echo ("Using target IP: " +:+ ip);
          mret ip
        else
          _ ← echo ("Querying " +:+ upper ip_type +:+ " address…");
          ip ← lift (get_ip_address ip_type proxy);
          _ ← echo ("Your public " +:+ upper ip_type +:+ " address is: " +:+ ip);
          mret ip);
  info ← lift (get_ip_info ip proxy no_cache);
  _ ← echo report_header;
  _ ← echo ("  Country  : " +:+ field_text info "country_name");
  _ ← echo ("  City     : " +:+ field_text info "city");
  _ ← echo ("  Latitude : " +:+ field_text info "latitude");
  _ ← echo ("  Longitude: " +:+ field_text info "longitude");
  _ ← echo ("  ISP      : " +:+ field_text info "org");
  echo ("  ASN      : " +:+ field_text info "asn").

End Command.

(** * The web application's helpers, [ip_utils.py]

    These functions call [requests.get(url)] with no other argument, write
    with [print] and report failures as strings they return.  Their
    environment is the services, the log of the URLs requested and the
    lines printed. *)

Module IpUtils.

Record Env := {
  services : string → exn + Response;
  requested : list string;
  printed : list string
}.

Definition P (A : Type) : Type := Env → result A * Env.

#[global] Instance P_ret : MRet P := λ A a s, (Returns a, s).
#[global] Instance P_bind : MBind P := λ A B k m s,
  match m s with
  | (Returns a, s') => k a s'
  | (Raises e, s') => (Raises e, s')
  end.

Definition raise {A} (e : exn) : P A := λ s, (Raises e, s).

Definition try_except {A} (body : P A) (handler : exn → P A) : P A := λ s,
  match body s with
  | (Returns a, s') => (Returns a, s')
  | (Raises e, s') => handler e s'
  end.

(** [requests.get(url)]. *)
Definition requests_get (url : string) : P Response := λ s,
  let s' := {| services := services s; requested := requested s ++ [url];
               printed := printed s |} in
  match services s url with
  | inr resp => (Returns resp, s')
  | inl e => (Raises e, s')
  end.

Definition raise_for_status (resp : Response) : P unit :=
  if str_truthy (http_error_msg resp)
  then raise (HTTPError (http_error_msg resp) (Some resp))
  else mret ().

Definition resp_json (resp : Response) : P json :=
  match json_body resp with
  | Some v => mret v
  | None => raise (RequestException "Expecting value: line 1 column 1 (char 0)")
  end.

Definition as_dict (v : json) : P (gmap string json) :=
  match v with
  | JObj d => mret d
  | _ => raise (AttributeError "object has no attribute 'get'")
  end.

(** [print(line)]. *)
Definition print (line : string) : P unit := λ s,
  (Returns (), {| services := services s; requested := requested s;
                  printed := printed s ++ [line] |}).

(** [needle in s] on strings. *)
Fixpoint contains (needle s : string) : bool :=
  String.prefix needle s ||
  match s with
  | String _ s' => contains needle s'
  | EmptyString => false
  end.

Definition invalid_type_msg : string :=
  "Error: Invalid IP type specified.  Must be 'ipv4' or 'ipv6'.".

Definition get_ip_address (ip_type : string) : P string :=
  try_except
    (match (if bool_decide (ip_type = "ipv6") then Some "https://api6.ipify.org"
            else if bool_decide (ip_type = "ipv4") then Some "https://api.ipify.org"
            else None) with
     | Some url =>
         response ← requests_get url;
         _ ← raise_for_status response;
         mret (strip (text response))
     | None => mret invalid_type_msg
     end)
    (λ e, if is_RequestException e
          then mret ("Error: Failed to retrieve IP address: " +:+ exn_str e)
          else mret ("An unexpected error occurred: " +:+ exn_str e)).

Section Info.
Context {fmt : PyFormat}.

(** The result is the provider's dict, or a string that reports a
    failure. *)
Definition get_ip_info (ip_address : string) : P (string + gmap string json) :=
  try_except
    (response ← requests_get ("http://ip-api.com/json/" +:+ ip_address);
     _ ← raise_for_status response;
     v ← resp_json response;
     ip_info ← as_dict v;
     if truthy (dict_get ip_info "error")
     then mret (inl ("Error from ipapi.co: " +:+ py_str (dict_get ip_info "error")))
     else mret (inr ip_info))
    (λ e, if is_RequestException e
          then mret (inl ("Error: Failed to retrieve IP information: " +:+ exn_str e))
          else mret (inl ("An unexpected error occurred: " +:+ exn_str e))).

(** [ip_info.get(k, 'N/A')] inside an f-string: only a dict has [get]. *)
Definition get_text (ip_info : string + gmap string json) (k : string) : P string :=
  match ip_info with
  | inr d => mret (py_str (default (JStr "N/A") (d !! k)))
  | inl _ => raise (AttributeError "'str' object has no attribute 'get'")
  end.

(** [if ip_info]. *)
Definition info_truthy (ip_info : string + gmap string json) : bool :=
  match ip_info with
  | inl s => str_truthy s
  | inr d => dict_truthy d
  end.

(** [isinstance(ip_info, str) and "Error:" in ip_info]. *)
Definition is_error_text (ip_info : string + gmap string json) : bool :=
  match ip_info with
  | inl s => contains "Error:" s
  | inr _ => false
  end.

Definition display_ip_info (ip_type : string) : P unit :=
  ip_address ← get_ip_address ip_type;
  if contains "Error:" ip_address then print ip_address else
  _ ← print ("Your public " +:+ upper ip_type +:+ " address is: " +:+ ip_address);
  ip_info ← get_ip_info ip_address;
  if is_error_text ip_info then
    print (match ip_info with inl s => s | inr _ => EmptyString end)
  else if info_truthy ip_info then
    _ ← print (String (Ascii.ascii_of_nat 10) "Geolocation and ISP Information:");
    country ← get_text ip_info "country_name";
    _ ← print ("  Country: " +:+ country);
    city ← get_text ip_info "city";
    _ ← print ("  City: " +:+ city);
    latitude ← get_text ip_info "latitude";
    _ ← print ("  Latitude: " +:+ latitude);
    longitude ← get_text ip_info "longitude";
    _ ← print ("  Longitude: " +:+ longitude);
    org ← get_text ip_info "org";
    _ ← print ("  ISP: " +:+ org);
    asn ← get_text ip_info "asn";
    print ("  ASN: " +:+ asn)
  else print "Could not retrieve geolocation and ISP information.".

Definition main : P unit :=
  _ ← print "Welcome to the IP Information Application!";
  _ ← display_ip_info "ipv4";
  _ ← print (String (Ascii.ascii_of_nat 10) EmptyString);
  display_ip_info "ipv6".

End Info.

End IpUtils.

(** * Vocabulary of the statements *)

(** The reading [time.time()] returns next. *)
Definition now (w : World) : Qc := clock w (ticks w).

(** The entry the cache file holds for [ip], if any. *)
Definition stored (w : World) (ip : string) : option CacheEntry :=
  data ← cache_file w; data !! ip.

(** An entry is within the TTL at a reading [t] when [t - timestamp <= TTL]. *)
Definition within_ttl (t : Qc) (e : CacheEntry) : Prop :=
  (t - timestamp e <= CACHE_TTL)%Qc.

Definition expired (t : Qc) (e : CacheEntry) : Prop :=
  (CACHE_TTL < t - timestamp e)%Qc.

(** The store [save_cache ip record] writes at reading [t] over the file
    content [f]. *)
Definition upsert (f : option (gmap string CacheEntry)) (ip : string)
    (t : Qc) (record : gmap string json) : gmap string CacheEntry :=
  <[ip := {| timestamp := t; info := record |}]> (default ∅ f).

(** The two requests [get_ip_info] can issue. *)
Definition primary_request (ip : string) (proxy : option string) : Request :=
  {| req_url := primary_url ip; req_proxies := make_proxies proxy;
     req_verify := false; req_timeout := 5 |}.

Definition fallback_request (ip : string) (proxy : option string) : Request :=
  {| req_url := fallback_url ip; req_proxies := make_proxies proxy;
     req_verify := false; req_timeout := 5 |}.

(** The statuses on which [raise_for_status] raises. *)
Definition is_http_error (resp : Response) : bool :=
  bool_decide (400 ≤ status_code resp < 600)%Z.

(** The primary provider answers with HTTP status 429: as a response, on
    which [raise_for_status] raises, or as an [HTTPError] raised by
    [requests.get] that carries such a response. *)
Definition rate_limited (a : exn + Response) : bool :=
  match a with
  | inr resp => bool_decide (status_code resp = 429%Z)
  | inl (HTTPError _ response) => is_rate_limit response
  | inl _ => false
  end.

(** The world in which the providers are queried: [load_cache] has run
    unless [skip_cache]. *)
Definition after_cache_check (ip : string) (skip_cache : bool) (w : World) : World :=
  if skip_cache then w else snd (load_cache ip w).

(** The file has the entry [e] for [ip], and [e] is within the TTL at the
    reading [load_cache] takes. *)
Definition fresh_entry (w : World) (ip : string) (e : CacheEntry) : Prop :=
  stored w ip = Some e ∧ (now w - timestamp e <= CACHE_TTL)%Qc.

(** [get_ip_info] goes to the network: the cache is skipped, or has nothing
    fresh for [ip], or what it has is the empty record. *)
Definition cache_miss (ip : string) (skip_cache : bool) (w : World) : Prop :=
  skip_cache = true ∨ ∀ e, fresh_entry w ip e → info e = ∅.

(** *** The fallback mapping in the words of the specification *)

(** The mapping as the specification words it: a field of the response is
    taken whenever the response has it, the default otherwise. *)
Definition field_else (d : gmap string json) (k : string) (dflt : json) : json :=
  default dflt (d !! k).

Definition fallback_record_by_presence (fbdata : gmap string json)
    : gmap string json :=
  {[ "country_name" :=
       field_else fbdata "country_name"
         (field_else fbdata "country" (JStr "N/A"));
     "city" := field_else fbdata "city" (JStr "N/A");
     "latitude" := field_else fbdata "latitude" (JNum 0);
     "longitude" := field_else fbdata "longitude" (JNum 0);
     "org" := field_else fbdata "IPv4" (JStr "N/A");
     "asn" := JStr "N/A" ]}.

(** The fields of a response that hold a truthy value. *)
Definition truthy_fields (d : gmap string json) : gmap string json :=
  filter (λ kv, truthy kv.2 = true) d.

(** *** The echo endpoints *)

Definition echo_request (url : string) (proxy : option string) : Request :=
  {| req_url := url; req_proxies := make_proxies proxy;
     req_verify := false; req_timeout := 5 |}.

(** The endpoints [get_ip_address] tries for a version, in order. *)
Definition echo_endpoints (ip_type : string) : list string :=
  if bool_decide (ip_type = "ipv4") then ["https://api.ipify.org"]
  else ["https://api6.ipify.org"; "https://ipv6.icanhazip.com"].


(** The exception the loop of [get_ip_address] catches when the endpoint
    fails: one raised by [requests.get], or the [HTTPError] that
    [raise_for_status] raises on the response. *)
Definition endpoint_error (a : exn + Response) : option exn :=
  match a with
  | inl e => if is_RequestException e then Some e else None
  | inr resp =>
      if is_http_error resp
      then Some (HTTPError (http_error_msg resp) (Some resp))
      else None
  end.

(** *** Data of the closed instances *)

(** The rendering used in the instances below: Python's for [None], [True]
    and [False]; the instances format no other non-string value. *)
Definition scalar_format : PyFormat := λ v,
  match v with
  | JNull => "None"
  | JBool true => "True"
  | JBool false => "False"
  | _ => "?"
  end.

(** A world with nothing logged, whose clock starts at [start] and
    advances one second per reading. *)
Definition world (f : option (gmap string CacheEntry)) (start : Z)
    (net : Request → exn + Response) : World :=
  {| cache_file := f; clock := λ n, Q2Qc (inject_Z (start + Z.of_nat n));
     ticks := 0; network := net; calls := []; stderr := [] |}.

Definition json_response (url : string) (c : Z) (phrase : string) (v : json)
    : Response :=
  {| resp_url := url; status_code := c; reason := phrase;
     text := EmptyString; json_body := Some v |}.

(** Every service answers 200 with the JSON document [v]. *)
Definition net_ok (v : json) : Request → exn + Response :=
  λ r, inr (json_response (req_url r) 200 "OK" v).

(** The primary provider answers with status [c] and the document [v];
    the secondary provider answers 200 with [fbv]. *)
Definition net_primary (ip : string) (c : Z) (phrase : string) (v fbv : json)
    : Request → exn + Response :=
  λ r, if bool_decide (req_url r = primary_url ip)
       then inr (json_response (req_url r) c phrase v)
       else inr (json_response (req_url r) 200 "OK" fbv).

(** No service can be reached. *)
Definition net_down : Request → exn + Response :=
  λ _, inl (RequestException "Connection refused").

Definition us_record : gmap string json :=
  {[ "country_name" := JStr "US"; "city" := JStr "NY";
     "latitude" := JNum 0; "longitude" := JNum 0;
     "org" := JStr "Org"; "asn" := JStr "AS" ]}.

Definition fallback_answer : gmap string json :=
  {[ "country" := JStr "X"; "city" := JStr "Y";
     "latitude" := JNum (Q2Qc 1); "longitude" := JNum (Q2Qc 2);
     "IPv4" := JStr "Z" ]}.

Definition t0 : Z := 1700000000.

(** Every service answers 200 with the text [body] and the JSON document
    [v]. *)
Definition net_all (body : string) (v : json) : Request → exn + Response :=
  λ r, inr {| resp_url := req_url r; status_code := 200; reason := "OK";
              text := body; json_body := Some v |}.


(** The primary provider answers 429 and nothing else can be reached. *)
Definition net_limited_down (ip : string) : Request → exn + Response :=
  λ r, if bool_decide (req_url r = primary_url ip)
       then inr (json_response (req_url r) 429 "Too Many Requests" JNull)
       else inl (RequestException "Connection refused").

(** An environment of the helpers with nothing requested or printed. *)
Definition helper_env (srv : string → exn + Response) : IpUtils.Env :=
  {| IpUtils.services := srv; IpUtils.requested := []; IpUtils.printed := [] |}.

(** Every service answers 200 with the text [body] and the JSON document
    [v]. *)
Definition srv_all (body : string) (v : json) : string → exn + Response :=
  λ url, inr {| resp_url := url; status_code := 200; reason := "OK";
                text := body; json_body := Some v |}.

(** No service can be reached. *)
Definition srv_down : string → exn + Response :=
  λ _, inl (RequestException "Connection refused").

(** A console with nothing written yet. *)
Definition console (w : World) : Console := {| env := w; stdout := [] |}.

(** * Properties *)

(** ** The monad, unfolded *)

Ltac unfold_M :=
  unfold mbind, M_bind, mret, M_ret, bind, ret, raise, try_except in *.

Lemma expired_iff_not_within t e : expired t e ↔ ¬ within_ttl t e.
Proof.
  unfold expired, within_ttl. split.
  - intros Hlt Hle. exact (Qclt_not_le _ _ Hlt Hle).
  - apply Qcnot_le_lt.
Qed.

Lemma within_iff_not_expired t e : within_ttl t e ↔ ¬ expired t e.
Proof.
  unfold expired, within_ttl. split.
  - intros Hle Hlt. exact (Qclt_not_le _ _ Hlt Hle).
  - apply Qcnot_lt_le.
Qed.

(** ** Cache store *)

(** [load_cache], case by case. *)
Lemma load_cache_no_file ip w :
  cache_file w = None → load_cache ip w = (Returns None, w).
Proof.
  intros Hf. unfold load_cache, cache_file_exists. unfold_M.
  rewrite Hf. rewrite bool_decide_eq_false_2; [done|].
  by intros [? ?].
Qed.

Lemma load_cache_no_entry ip w data :
  cache_file w = Some data → data !! ip = None →
  load_cache ip w = (Returns None, w).
Proof.
  intros Hf Hd. unfold load_cache, cache_file_exists, cache_file_read. unfold_M.
  rewrite Hf, bool_decide_eq_true_2 by eauto. cbn [negb].
  rewrite Hf. cbn beta iota. by rewrite Hd.
Qed.

Lemma load_cache_expired ip w data e :
  cache_file w = Some data → data !! ip = Some e → expired (now w) e →
  load_cache ip w = (Returns None, tick w).
Proof.
  intros Hf Hd He.
  unfold load_cache, cache_file_exists, cache_file_read, time_time. unfold_M.
  rewrite Hf, bool_decide_eq_true_2 by eauto. cbn [negb].
  rewrite Hf. cbn beta iota. rewrite Hd.
  by rewrite bool_decide_eq_true_2.
Qed.

Lemma load_cache_fresh ip w data e :
  cache_file w = Some data → data !! ip = Some e → within_ttl (now w) e →
  load_cache ip w = (Returns (Some (info e)), tick w).
Proof.
  intros Hf Hd He.
  unfold load_cache, cache_file_exists, cache_file_read, time_time. unfold_M.
  rewrite Hf, bool_decide_eq_true_2 by eauto. cbn [negb].
  rewrite Hf. cbn beta iota. rewrite Hd.
  rewrite bool_decide_eq_false_2; [done|].
  by apply within_iff_not_expired.
Qed.

(** The four cases are exhaustive. *)
Lemma load_cache_cases ip w :
  (cache_file w = None ∧ load_cache ip w = (Returns None, w))
  ∨ (∃ data, cache_file w = Some data ∧ data !! ip = None
       ∧ load_cache ip w = (Returns None, w))
  ∨ (∃ data e, cache_file w = Some data ∧ data !! ip = Some e
       ∧ expired (now w) e ∧ load_cache ip w = (Returns None, tick w))
  ∨ (∃ data e, cache_file w = Some data ∧ data !! ip = Some e
       ∧ within_ttl (now w) e
       ∧ load_cache ip w = (Returns (Some (info e)), tick w)).
Proof.
  destruct (cache_file w) as [data|] eqn:Hf.
  - destruct (data !! ip) as [e|] eqn:Hd.
    + destruct (decide (CACHE_TTL < now w - timestamp e)%Qc) as [He|He].
      * right; right; left. exists data, e.
        eauto using load_cache_expired.
      * right; right; right. exists data, e.
        apply within_iff_not_expired in He. eauto using load_cache_fresh.
    + right; left. exists data. eauto using load_cache_no_entry.
  - left. eauto using load_cache_no_file.
Qed.

(** [save_cache] never fails and has one effect. *)
Lemma save_cache_run ip record w :
  save_cache ip record w
  = (Returns (), set_cache_file (Some (upsert (cache_file w) ip (now w) record)) (tick w)).
Proof.
  unfold save_cache, cache_file_exists, cache_file_read, cache_file_write,
    time_time, upsert, now. unfold_M.
  destruct (cache_file w) as [data|] eqn:Hf.
  - rewrite bool_decide_eq_true_2 by eauto. by rewrite Hf.
  - rewrite bool_decide_eq_false_2 by (by intros [? ?]). done.
Qed.

(** C6 (cache get).  [load_cache] always returns; it returns [None] exactly
    when the cache file does not exist, or the file has no entry for the
    IP, or the entry has expired ([now - timestamp > CACHE_TTL]); and it
    returns a record exactly when the file has an entry for the IP with
    [now - timestamp <= CACHE_TTL], the record being that entry's [info].
    So a stale entry is never returned. *)
Theorem load_cache_absent_iff ip w :
  (fst (load_cache ip w) = Returns None ↔
     cache_file w = None
     ∨ (∃ data, cache_file w = Some data ∧ data !! ip = None)
     ∨ (∃ data e, cache_file w = Some data ∧ data !! ip = Some e
          ∧ (CACHE_TTL < now w - timestamp e)%Qc))
  ∧ (∀ r, fst (load_cache ip w) = Returns (Some r) ↔
       ∃ data e, cache_file w = Some data ∧ data !! ip = Some e
         ∧ (now w - timestamp e <= CACHE_TTL)%Qc ∧ r = info e)
  ∧ (∀ x, fst (load_cache ip w) ≠ Raises x).
Proof.
  destruct (load_cache_cases ip w)
    as [[Hf ->]|[(data & Hf & Hd & ->)|[(data & e & Hf & Hd & He & ->)
       |(data & e & Hf & Hd & He & ->)]]]; cbn [fst].
  - split_and!; [naive_solver| |done].
    intros r; split; [done|]. intros (? & ? & ? & _); congruence.
  - split_and!; [naive_solver| |done].
    intros r; split; [done|]. intros (? & ? & ? & ? & _); congruence.
  - split_and!; [naive_solver| |done].
    intros r; split; [done|]. intros (? & e' & ? & ? & He' & _).
    simplify_eq. by apply expired_iff_not_within in He.
  - split_and!; [| |done].
    2:{ intros r; split.
        - intros [= <-]. eauto 10.
        - intros (? & e' & ? & ? & _ & ->). by simplify_eq. }
    split; [done|]. intros [?|[(? & ? & ?)|(? & e' & ? & ? & He')]]; try congruence.
    simplify_eq. by apply (within_iff_not_expired (now w) e) in He.
Qed.

(** C7 (round trip).  [save_cache ip record] followed by [load_cache ip],
    the second clock reading being at most [CACHE_TTL] after the first,
    returns [record]. *)
Theorem save_then_load_roundtrip ip record w :
  (clock w (S (ticks w)) - clock w (ticks w) <= CACHE_TTL)%Qc →
  fst (save_cache ip record w) = Returns ()
  ∧ fst (load_cache ip (snd (save_cache ip record w))) = Returns (Some record).
Proof.
  intros Httl. rewrite save_cache_run. cbn [fst snd]. split; [done|].
  rewrite (load_cache_fresh ip _ (upsert (cache_file w) ip (now w) record)
             {| timestamp := now w; info := record |});
    [done|done|apply lookup_insert_eq|exact Httl].
Qed.

(** C9 (frame of put).  [save_cache ip record] returns normally; the file
    it leaves is the previous store (the empty store when there was no
    file) with the entry for [ip] set to [record] stamped with the current
    time; the entry of every other IP is as before. *)
Theorem save_cache_frame ip record w :
  fst (save_cache ip record w) = Returns ()
  ∧ cache_file (snd (save_cache ip record w))
    = Some (<[ip := {| timestamp := now w; info := record |}]>
              (default ∅ (cache_file w)))
  ∧ stored (snd (save_cache ip record w)) ip
    = Some {| timestamp := now w; info := record |}
  ∧ (∀ ip', ip' ≠ ip →
       stored (snd (save_cache ip record w)) ip' = stored w ip').
Proof.
  rewrite save_cache_run. cbn [fst snd]. unfold stored, upsert. cbn.
  split_and!; [done|done|apply lookup_insert_eq|].
  intros ip' Hne. rewrite lookup_insert_ne by done.
  by destruct (cache_file w).
Qed.

(** ** Running the lookup *)

Lemma bind_returns {A B} (m : M A) (k : A → M B) w a w' :
  m w = (Returns a, w') → (m ≫= k) w = k a w'.
Proof. intros Hm. unfold_M. by rewrite Hm. Qed.

Lemma bind_raises {A B} (m : M A) (k : A → M B) w e w' :
  m w = (Raises e, w') → (m ≫= k) w = (Raises e, w').
Proof. intros Hm. unfold_M. by rewrite Hm. Qed.

Lemma app_nonempty (s1 s2 : string) : s2 ≠ EmptyString → s1 +:+ s2 ≠ EmptyString.
Proof. by destruct s1. Qed.

Lemma http_error_msg_truthy resp :
  str_truthy (http_error_msg resp) = is_http_error resp.
Proof.
  unfold str_truthy, http_error_msg, is_http_error.
  destruct (bool_decide (400 ≤ status_code resp < 500)%Z) eqn:H4;
    [|destruct (bool_decide (500 ≤ status_code resp < 600)%Z) eqn:H5].
  - apply bool_decide_eq_true in H4.
    rewrite bool_decide_eq_false_2 by (by apply app_nonempty).
    symmetry. apply bool_decide_eq_true. lia.
  - apply bool_decide_eq_true in H5.
    rewrite bool_decide_eq_false_2 by (by apply app_nonempty).
    symmetry. apply bool_decide_eq_true. lia.
  - apply bool_decide_eq_false in H4. apply bool_decide_eq_false in H5.
    rewrite bool_decide_eq_true_2 by done.
    symmetry. apply bool_decide_eq_false. lia.
Qed.

Lemma raise_for_status_ok resp w :
  is_http_error resp = false → raise_for_status resp w = (Returns (), w).
Proof.
  intros Hc. unfold raise_for_status. by rewrite http_error_msg_truthy, Hc.
Qed.

Lemma raise_for_status_error resp w :
  is_http_error resp = true →
  raise_for_status resp w
  = (Raises (HTTPError (http_error_msg resp) (Some resp)), w).
Proof.
  intros Hc. unfold raise_for_status. by rewrite http_error_msg_truthy, Hc.
Qed.

(** One step of case analysis along the code of the lookup. *)
Ltac run_step :=
  match goal with
  | |- context [raise_for_status ?r ?w] =>
      destruct (is_http_error r) eqn:?;
      [rewrite (raise_for_status_error r w) by done
      |rewrite (raise_for_status_ok r w) by done]
  | |- context [match network ?w ?r with _ => _ end] =>
      destruct (network w r) eqn:?
  | |- context [match json_body ?r with _ => _ end] =>
      destruct (json_body r) eqn:?
  | |- context [if truthy ?v then _ else _] => destruct (truthy v) eqn:?
  | |- context [if is_rate_limit ?r then _ else _] =>
      destruct (is_rate_limit r) eqn:?
  | |- context [if is_RequestException ?e then _ else _] =>
      destruct (is_RequestException e) eqn:?
  | |- context [match ?x with _ => _ end] => is_var x; destruct x eqn:?
  end; cbn beta iota zeta.

Ltac run_providers ip proxy :=
  unfold lookup_providers, query_primary, on_primary_error, query_fallback,
    requests_get, resp_json, as_dict, echo_err; unfold_M;
  fold (primary_request ip proxy); fold (fallback_request ip proxy);
  cbn beta iota zeta.

Lemma rate_limit_is_http_error r :
  bool_decide (status_code r = 429%Z) = true → is_http_error r = true.
Proof.
  intros Hc%bool_decide_eq_true. apply bool_decide_eq_true. lia.
Qed.

Section LookupFacts.
Context {fmt : PyFormat}.

(** The [try] statement touches neither the cache file nor the clock, and
    issues the primary request followed, on a 429 only, by the fallback
    request. *)
Lemma lookup_providers_frame ip proxy w :
  let w' := snd (lookup_providers ip (make_proxies proxy) w) in
  cache_file w' = cache_file w ∧ clock w' = clock w ∧ ticks w' = ticks w
  ∧ network w' = network w
  ∧ calls w' = calls w ++ primary_request ip proxy ::
      (if rate_limited (network w (primary_request ip proxy))
       then [fallback_request ip proxy] else []).
Proof.
  run_providers ip proxy. repeat run_step.
  all: cbn [snd cache_file clock ticks network calls log_call log_stderr
            rate_limited is_rate_limit].
  all: split_and!; try done.
  all: rewrite <- ?app_assoc; cbn [app].
  all: cbn [is_rate_limit] in *.
  all: try match goal with
           | Hb : bool_decide (status_code _ = 429%Z) = _ |- _ => rewrite Hb
           | Hb : is_rate_limit _ = _ |- _ => rewrite Hb
           end; try done.
  all: match goal with
       | Hr : is_http_error ?r = false |- _ =>
           destruct (bool_decide (status_code r = 429%Z)) eqn:Hc; [|done];
           apply rate_limit_is_http_error in Hc; congruence
       end.
Qed.

(** It does not read the cache file either. *)
Lemma lookup_providers_ignores_file ip proxy f w :
  lookup_providers ip (make_proxies proxy) (set_cache_file f w)
  = (fst (lookup_providers ip (make_proxies proxy) w),
     set_cache_file f (snd (lookup_providers ip (make_proxies proxy) w))).
Proof.
  run_providers ip proxy. cbn [network set_cache_file log_call log_stderr].
  repeat (run_step; cbn [network set_cache_file log_call log_stderr]).
  all: done.
Qed.

(** After the [try] statement: a record is saved and returned, an
    exception propagates. *)
Lemma fetch_ip_info_run ip proxy w :
  fetch_ip_info ip proxy w
  = match lookup_providers ip (make_proxies proxy) w with
    | (Returns data, w1) =>
        (Returns data,
         set_cache_file (Some (upsert (cache_file w1) ip (now w1) data)) (tick w1))
    | (Raises e, w1) => (Raises e, w1)
    end.
Proof.
  unfold fetch_ip_info. cbn zeta.
  destruct (lookup_providers ip (make_proxies proxy) w) as [[data|e] w1] eqn:Hl.
  - erewrite bind_returns by exact Hl.
    erewrite bind_returns by apply save_cache_run. done.
  - by erewrite bind_raises by exact Hl.
Qed.

(** The primary provider answers with an application-level error. *)
Lemma lookup_providers_api_error ip proxy w resp data :
  network w (primary_request ip proxy) = inr resp →
  is_http_error resp = false →
  json_body resp = Some (JObj data) →
  truthy (dict_get data "error") = true →
  lookup_providers ip (make_proxies proxy) w
  = (Raises (Exit 1),
     log_stderr ("API error: " +:+ py_str (dict_get data "error"))
       (log_call (primary_request ip proxy) w)).
Proof.
  intros Hnet Hst Hbody Herr. run_providers ip proxy.
  rewrite Hnet. cbn beta iota zeta.
  rewrite raise_for_status_ok by done. cbn beta iota zeta.
  rewrite Hbody. cbn beta iota zeta. by rewrite Herr.
Qed.

(** The primary provider answers with a usable record. *)
Lemma lookup_providers_primary_ok ip proxy w resp data :
  network w (primary_request ip proxy) = inr resp →
  is_http_error resp = false →
  json_body resp = Some (JObj data) →
  truthy (dict_get data "error") = false →
  lookup_providers ip (make_proxies proxy) w
  = (Returns data, log_call (primary_request ip proxy) w).
Proof.
  intros Hnet Hst Hbody Herr. run_providers ip proxy.
  rewrite Hnet. cbn beta iota zeta.
  rewrite raise_for_status_ok by done. cbn beta iota zeta.
  rewrite Hbody. cbn beta iota zeta. by rewrite Herr.
Qed.

(** The primary provider answers with an HTTP error other than 429. *)
Lemma lookup_providers_http_error ip proxy w resp :
  network w (primary_request ip proxy) = inr resp →
  is_http_error resp = true →
  status_code resp ≠ 429%Z →
  lookup_providers ip (make_proxies proxy) w
  = (Raises (Exit 1),
     log_stderr ("Error fetching IP information: " +:+ http_error_msg resp)
       (log_call (primary_request ip proxy) w)).
Proof.
  intros Hnet Hst Hc. run_providers ip proxy.
  rewrite Hnet. cbn beta iota zeta.
  rewrite raise_for_status_error by done. cbn beta iota zeta.
  cbn [is_rate_limit]. by rewrite bool_decide_eq_false_2 by done.
Qed.

(** The primary provider is rate limited and the secondary answers. *)
Lemma lookup_providers_fallback_ok ip proxy w fb fbdata :
  rate_limited (network w (primary_request ip proxy)) = true →
  network w (fallback_request ip proxy) = inr fb →
  is_http_error fb = false →
  json_body fb = Some (JObj fbdata) →
  lookup_providers ip (make_proxies proxy) w
  = (Returns (fallback_record fbdata),
     log_call (fallback_request ip proxy)
       (log_stderr "Rate limit reached on ipapi.co, using fallback..."
          (log_call (primary_request ip proxy) w))).
Proof.
  intros Hrl Hnet Hst Hbody. run_providers ip proxy.
  destruct (network w (primary_request ip proxy)) as [e|resp] eqn:Hp;
    cbn [rate_limited] in Hrl; cbn beta iota zeta.
  - destruct e; try discriminate. cbn beta iota zeta. rewrite Hrl.
    cbn beta iota zeta. cbn [network log_stderr log_call].
    rewrite Hnet. cbn beta iota zeta.
    rewrite raise_for_status_ok by done. cbn beta iota zeta.
    by rewrite Hbody.
  - rewrite raise_for_status_error by by apply rate_limit_is_http_error.
    cbn beta iota zeta. cbn [is_rate_limit]. rewrite Hrl.
    cbn beta iota zeta. cbn [network log_stderr log_call].
    rewrite Hnet. cbn beta iota zeta.
    rewrite raise_for_status_ok by done. cbn beta iota zeta.
    by rewrite Hbody.
Qed.

(** *** The cache check *)

Lemma after_cache_check_frame ip skip w :
  let w1 := after_cache_check ip skip w in
  cache_file w1 = cache_file w ∧ clock w1 = clock w ∧ network w1 = network w
  ∧ calls w1 = calls w ∧ stderr w1 = stderr w.
Proof.
  unfold after_cache_check. destruct skip; [done|].
  destruct (load_cache_cases ip w)
    as [[_ ->]|[(? & _ & _ & ->)|[(? & ? & _ & _ & _ & ->)
       |(? & ? & _ & _ & _ & ->)]]]; done.
Qed.

Lemma get_ip_info_hit ip proxy w e :
  fresh_entry w ip e → info e ≠ ∅ →
  get_ip_info ip proxy false w = (Returns (info e), tick w).
Proof.
  intros [Hst Httl] Hne. unfold get_ip_info. cbn [negb].
  unfold stored in Hst. destruct (cache_file w) as [data|] eqn:Hf; [|done].
  cbn in Hst.
  erewrite bind_returns by (by eapply load_cache_fresh).
  unfold dict_truthy. by rewrite bool_decide_eq_false_2.
Qed.

Lemma get_ip_info_miss ip proxy skip w :
  cache_miss ip skip w →
  get_ip_info ip proxy skip w
  = fetch_ip_info ip proxy (after_cache_check ip skip w).
Proof.
  intros Hmiss. unfold get_ip_info, after_cache_check.
  destruct skip; [done|]. cbn [negb].
  destruct Hmiss as [?|Hmiss]; [done|].
  destruct (load_cache_cases ip w)
    as [[_ Hl]|[(? & _ & _ & Hl)|[(? & ? & _ & _ & _ & Hl)
       |(data & e & Hf & Hd & He & Hl)]]];
    erewrite bind_returns by exact Hl; rewrite Hl; try done.
  unfold dict_truthy. rewrite bool_decide_eq_true_2; [done|].
  apply Hmiss. split; [|done]. unfold stored. by rewrite Hf.
Qed.
End LookupFacts.

(** The two providers are asked at different URLs. *)
Lemma primary_fallback_distinct ip proxy :
  primary_request ip proxy ≠ fallback_request ip proxy.
Proof.
  intros Heq. apply (f_equal req_url) in Heq.
  unfold primary_request, fallback_request, primary_url, fallback_url in Heq.
  cbn in Heq. discriminate Heq.
Qed.

Section LookupCases.
Context {fmt : PyFormat}.

(** [get_ip_info] either answers from the cache or goes to the network. *)
Lemma get_ip_info_cases ip proxy skip w :
  (∃ e, skip = false ∧ fresh_entry w ip e ∧ info e ≠ ∅
      ∧ get_ip_info ip proxy skip w = (Returns (info e), tick w))
  ∨ (cache_miss ip skip w
      ∧ get_ip_info ip proxy skip w
        = fetch_ip_info ip proxy (after_cache_check ip skip w)).
Proof.
  destruct skip.
  { right. split; [by left|]. by apply get_ip_info_miss; left. }
  assert (Hstored : ∀ data e, cache_file w = Some data → data !! ip = Some e →
                    stored w ip = Some e).
  { intros data e Hf Hd. unfold stored. by rewrite Hf. }
  assert (Hnone : (∀ e, ¬ fresh_entry w ip e) →
                  cache_miss ip false w
                  ∧ get_ip_info ip proxy false w
                    = fetch_ip_info ip proxy (after_cache_check ip false w)).
  { intros Hno. assert (cache_miss ip false w) as Hm.
    { right. intros e He. by destruct (Hno e). }
    split; [done|]. by apply get_ip_info_miss. }
  destruct (load_cache_cases ip w)
    as [[Hf _]|[(data & Hf & Hd & _)|[(data & e & Hf & Hd & He & _)
       |(data & e & Hf & Hd & He & _)]]].
  - right. apply Hnone. intros e [Hs _]. unfold stored in Hs.
    by rewrite Hf in Hs.
  - right. apply Hnone. intros e [Hs _]. unfold stored in Hs.
    rewrite Hf in Hs. cbn in Hs. congruence.
  - right. apply Hnone. intros e' [Hs Ht].
    rewrite (Hstored data e) in Hs by done. simplify_eq.
    by apply expired_iff_not_within in He.
  - destruct (decide (info e = ∅)) as [Hemp|Hne].
    + right. assert (cache_miss ip false w) as Hm.
      { right. intros e' [Hs _].
        rewrite (Hstored data e) in Hs by done. by simplify_eq. }
      split; [done|]. by apply get_ip_info_miss.
    + left. exists e. assert (fresh_entry w ip e) by (split; eauto).
      split_and!; try done. by apply get_ip_info_hit.
Qed.
End LookupCases.

(** ** Geolocation lookup: the cache *)

Section LookupCache.
Context {fmt : PyFormat}.

(** C1 (amended).  When the cache file has an entry for the IP that is
    within the TTL and whose record is not the empty dict, [get_ip_info]
    with [skip_cache = False] returns that record, issues no request and
    leaves the cache file as it is. *)
Theorem cache_hit_no_network ip proxy w e :
  fresh_entry w ip e → info e ≠ ∅ →
  fst (get_ip_info ip proxy false w) = Returns (info e)
  ∧ calls (snd (get_ip_info ip proxy false w)) = calls w
  ∧ cache_file (snd (get_ip_info ip proxy false w)) = cache_file w.
Proof.
  intros Hfresh Hne. by rewrite (get_ip_info_hit ip proxy w e).
Qed.

(** C8 (skip_cache).  With [skip_cache = True] the outcome, the requests
    issued and the diagnostics do not depend on what the cache file
    holds; the primary provider is always asked; and whenever a record
    is returned, the cache file afterwards is the previous store with the
    entry for the IP set to that record, stamped with the current time. *)
Theorem skip_cache_bypasses_read ip proxy w :
  (∀ f, fst (get_ip_info ip proxy true (set_cache_file f w))
        = fst (get_ip_info ip proxy true w)
      ∧ calls (snd (get_ip_info ip proxy true (set_cache_file f w)))
        = calls (snd (get_ip_info ip proxy true w))
      ∧ stderr (snd (get_ip_info ip proxy true (set_cache_file f w)))
        = stderr (snd (get_ip_info ip proxy true w)))
  ∧ (∃ rest, calls (snd (get_ip_info ip proxy true w))
             = calls w ++ primary_request ip proxy :: rest)
  ∧ (∀ r, fst (get_ip_info ip proxy true w) = Returns r →
       cache_file (snd (get_ip_info ip proxy true w))
       = Some (<[ip := {| timestamp := now w; info := r |}]>
                 (default ∅ (cache_file w)))
       ∧ stored (snd (get_ip_info ip proxy true w)) ip
         = Some {| timestamp := now w; info := r |}).
Proof.
  change (get_ip_info ip proxy true) with (fetch_ip_info ip proxy).
  destruct (lookup_providers_frame ip proxy w) as (Hf & Hc & Ht & _ & Hcalls).
  split_and!.
  - intros f. rewrite !fetch_ip_info_run, lookup_providers_ignores_file.
    destruct (lookup_providers ip (make_proxies proxy) w) as [[d|x] w1]; done.
  - rewrite fetch_ip_info_run.
    destruct (lookup_providers ip (make_proxies proxy) w) as [[d|x] w1];
      cbn [fst snd] in *; eauto.
  - intros r. rewrite fetch_ip_info_run.
    destruct (lookup_providers ip (make_proxies proxy) w) as [[d|x] w1];
      cbn [fst snd] in *; [|done].
    intros [= ->]. unfold stored, upsert, now. cbn. rewrite Hf, Hc, Ht.
    split; [done|]. apply lookup_insert_eq.
Qed.

(** C10 (failure atomicity).  Whenever [get_ip_info] raises, whatever the
    exception, the cache file is what it was before the call; so the
    cache file changes only on a run that returns a record, and then the
    entry for the IP holds that record. *)
Theorem failure_leaves_cache_unchanged ip proxy skip w :
  (∀ x, fst (get_ip_info ip proxy skip w) = Raises x →
        cache_file (snd (get_ip_info ip proxy skip w)) = cache_file w)
  ∧ (cache_file (snd (get_ip_info ip proxy skip w)) ≠ cache_file w →
     ∃ r, fst (get_ip_info ip proxy skip w) = Returns r
          ∧ (info <$> stored (snd (get_ip_info ip proxy skip w)) ip) = Some r).
Proof.
  destruct (get_ip_info_cases ip proxy skip w)
    as [(e & _ & _ & _ & ->)|[_ ->]]; [done|].
  rewrite fetch_ip_info_run.
  destruct (after_cache_check_frame ip skip w) as (Hf1 & _).
  destruct (lookup_providers_frame ip proxy (after_cache_check ip skip w))
    as (Hf & _).
  destruct (lookup_providers ip (make_proxies proxy) _) as [[d|x] w1];
    cbn [fst snd] in *.
  - split; [done|]. intros _. exists d. split; [done|].
    unfold stored, upsert. cbn. by rewrite lookup_insert_eq.
  - split; [intros; congruence|]. intros Hne. destruct Hne. congruence.
Qed.
End LookupCache.

(** ** Geolocation lookup: the providers *)

Section LookupProviders.
Context {fmt : PyFormat}.

(** C2 (rate-limit fallback).  On a cache miss [get_ip_info] issues the
    primary request once; the fallback request follows exactly when the
    primary provider answers 429, and nothing else is requested.  When
    the secondary provider then answers with a JSON object, the record
    mapped from it is returned and stored in the cache file under the
    IP.  When the primary provider answers with an HTTP error status
    other than 429, the call ends with [Exit(1)] after the diagnostic
    "Error fetching IP information: ...", having issued the primary
    request only, and the cache file is unchanged. *)
Theorem miss_primary_then_fallback_on_429 ip proxy skip w :
  cache_miss ip skip w →
  let out := get_ip_info ip proxy skip w in
  let answer := network w (primary_request ip proxy) in
  let new_calls := drop (length (calls w)) (calls (snd out)) in
  new_calls = primary_request ip proxy ::
                (if rate_limited answer then [fallback_request ip proxy] else [])
  ∧ length (filter (λ r, req_url r = primary_url ip) new_calls) = 1
  ∧ (fallback_request ip proxy ∈ new_calls ↔ rate_limited answer = true)
  ∧ (∀ fb fbdata,
       rate_limited answer = true →
       network w (fallback_request ip proxy) = inr fb →
       is_http_error fb = false →
       json_body fb = Some (JObj fbdata) →
       fst out = Returns (fallback_record fbdata)
       ∧ cache_file (snd out)
         = Some (<[ip := {| timestamp := now (after_cache_check ip skip w);
                            info := fallback_record fbdata |}]>
                   (default ∅ (cache_file w))))
  ∧ (∀ resp,
       answer = inr resp →
       is_http_error resp = true →
       status_code resp ≠ 429%Z →
       fst out = Raises (Exit 1)
       ∧ stderr (snd out)
         = stderr w ++ ["Error fetching IP information: " +:+ http_error_msg resp]
       ∧ calls (snd out) = calls w ++ [primary_request ip proxy]
       ∧ cache_file (snd out) = cache_file w).
Proof.
  intros Hmiss. cbn zeta. rewrite (get_ip_info_miss ip proxy skip w Hmiss).
  destruct (after_cache_check_frame ip skip w) as (Hf1 & Hc1 & Hn1 & Hcalls1 & He1).
  set (w1 := after_cache_check ip skip w) in *.
  destruct (lookup_providers_frame ip proxy w1) as (Hf & Hc & Ht & _ & Hcalls).
  rewrite Hn1, Hcalls1 in Hcalls.
  assert (Hnew : drop (length (calls w)) (calls (snd (fetch_ip_info ip proxy w1)))
                 = primary_request ip proxy ::
                     (if rate_limited (network w (primary_request ip proxy))
                      then [fallback_request ip proxy] else [])).
  { rewrite fetch_ip_info_run.
    destruct (lookup_providers ip (make_proxies proxy) w1) as [[d|x] w2];
      cbn [fst snd calls set_cache_file tick] in *;
      by rewrite Hcalls, drop_app_length. }
  rewrite Hnew. split_and!.
  - done.
  - assert (req_url (fallback_request ip proxy) ≠ primary_url ip) as Hne.
    { intros Heq. unfold fallback_url, primary_url in Heq. cbn in Heq.
      discriminate Heq. }
    rewrite filter_cons_True by done.
    destruct (rate_limited _); [|done].
    by rewrite filter_cons_False by done.
  - pose proof (primary_fallback_distinct ip proxy) as Hd.
    rewrite elem_of_cons.
    destruct (rate_limited _).
    + rewrite list_elem_of_singleton. split; [done|]. by right.
    + rewrite elem_of_nil. split; [|done]. intros [Heq|[]]. by destruct Hd.
  - intros fb fbdata Hrl Hnet Hst Hbody. rewrite fetch_ip_info_run.
    rewrite (lookup_providers_fallback_ok ip proxy w1 fb fbdata)
      by (rewrite ?Hn1; done).
    cbn [fst snd cache_file set_cache_file tick log_call log_stderr now clock ticks].
    unfold upsert, now. by rewrite Hf1.
  - intros resp Hnet Hst Hcode. rewrite fetch_ip_info_run.
    rewrite (lookup_providers_http_error ip proxy w1 resp)
      by (rewrite ?Hn1; done).
    cbn [fst snd cache_file stderr calls log_call log_stderr].
    by rewrite Hf1, He1, Hcalls1.
Qed.

(** C3 (amended).  On a cache miss, when the primary provider answers
    with a status outside 400-599 and a JSON object whose "error" field
    is truthy, [get_ip_info] ends with [Exit(1)] after the diagnostic
    "API error: " followed by the field's text; only the primary request
    has been issued and the cache file is unchanged. *)
Theorem api_error_is_terminal ip proxy skip w resp data err :
  cache_miss ip skip w →
  network w (primary_request ip proxy) = inr resp →
  is_http_error resp = false →
  json_body resp = Some (JObj data) →
  data !! "error" = Some err →
  truthy err = true →
  let out := get_ip_info ip proxy skip w in
  fst out = Raises (Exit 1)
  ∧ stderr (snd out) = stderr w ++ ["API error: " +:+ py_str err]
  ∧ calls (snd out) = calls w ++ [primary_request ip proxy]
  ∧ cache_file (snd out) = cache_file w.
Proof.
  intros Hmiss Hnet Hst Hbody Hfield Herr. cbn zeta.
  rewrite (get_ip_info_miss ip proxy skip w Hmiss).
  destruct (after_cache_check_frame ip skip w) as (Hf1 & Hc1 & Hn1 & Hcalls1 & He1).
  set (w1 := after_cache_check ip skip w) in *.
  assert (dict_get data "error" = err) as Hget.
  { unfold dict_get. by rewrite Hfield. }
  rewrite fetch_ip_info_run.
  rewrite (lookup_providers_api_error ip proxy w1 resp data)
    by (rewrite ?Hn1, ?Hget; done).
  cbn [fst snd cache_file stderr calls log_call log_stderr].
  by rewrite Hget, Hf1, He1, Hcalls1.
Qed.
End LookupProviders.

(** ** Fallback mapping *)

(** [d.get(k) or dflt] reads the field when it is there and truthy. *)
Lemma py_or_get d k dflt :
  py_or (dict_get d k) dflt = field_else (truthy_fields d) k dflt.
Proof.
  unfold py_or, dict_get, field_else, truthy_fields.
  destruct (d !! k) as [v|] eqn:Hk; cbn [default from_option id].
  - destruct (truthy v) eqn:Hv.
    + assert (filter (λ kv, truthy kv.2 = true) d !! k = Some v) as ->; [|done].
      by apply map_lookup_filter_Some.
    + assert (filter (λ kv, truthy kv.2 = true) d !! k = None) as ->; [|done].
      apply map_lookup_filter_None. right. intros v' Hv'. cbn.
      simplify_eq. by rewrite Hv.
  - assert (filter (λ kv, truthy kv.2 = true) d !! k = None) as ->; [|done].
    apply map_lookup_filter_None. by left.
Qed.

(** C4 (amended).  The record built from a secondary-provider response
    takes each field from the response when the response has it with a
    truthy value (not [null], [false], zero or empty): country_name from
    "country_name", else from "country", else "N/A"; city from "city" else
    "N/A"; latitude and longitude from the response else 0; org from
    "IPv4" else "N/A"; asn is always "N/A".  For the response
    [{"country": "X", "city": "Y", "latitude": 1, "longitude": 2,
    "IPv4": "Z"}] the record has country_name "X", org "Z" and asn "N/A". *)
Theorem fallback_mapping :
  (∀ fbdata,
     fallback_record fbdata = fallback_record_by_presence (truthy_fields fbdata))
  ∧ (∀ fbdata, fallback_record fbdata !! "asn" = Some (JStr "N/A"))
  ∧ (let r := fallback_record
                {[ "country" := JStr "X"; "city" := JStr "Y";
                   "latitude" := JNum (Q2Qc 1); "longitude" := JNum (Q2Qc 2);
                   "IPv4" := JStr "Z" ]} in
     r !! "country_name" = Some (JStr "X")
     ∧ r !! "org" = Some (JStr "Z")
     ∧ r !! "asn" = Some (JStr "N/A")).
Proof.
  split_and!.
  - intros fbdata. unfold fallback_record, fallback_record_by_presence.
    by rewrite !py_or_get.
  - intros fbdata. unfold fallback_record. by simplify_map_eq.
  - by vm_compute.
Qed.

(** ** Address resolver *)

Lemma try_urls_next url urls proxy last w e :
  endpoint_error (network w (echo_request url proxy)) = Some e →
  try_urls (url :: urls) (make_proxies proxy) last w
  = try_urls urls (make_proxies proxy) (Some e) (log_call (echo_request url proxy) w).
Proof.
  intros He. cbn [try_urls]. unfold requests_get. unfold_M.
  fold (echo_request url proxy).
  destruct (network w (echo_request url proxy)) as [x|resp];
    cbn [endpoint_error] in He; cbn beta iota zeta.
  - destruct (is_RequestException x) eqn:Hx; by simplify_eq.
  - destruct (is_http_error resp) eqn:Hr; [|done]. simplify_eq.
    by rewrite raise_for_status_error by done.
Qed.

(** C5 (amended).  When every echo endpoint fails, [get_ip_address] writes
    a diagnostic that depends on the requested version: for "ipv6" the
    fixed IPv6-unsupported message, for "ipv4" the text "Error fetching
    IPv4 address: " followed by the last error.  The two diagnostics
    always differ.  The exception that reaches the caller is [Exit(1)] in
    both cases. *)
Theorem resolver_failure_kinds proxy w e4 e6 e6' :
  endpoint_error (network w (echo_request "https://api.ipify.org" proxy)) = Some e4 →
  endpoint_error (network w (echo_request "https://api6.ipify.org" proxy)) = Some e6 →
  endpoint_error (network w (echo_request "https://ipv6.icanhazip.com" proxy)) = Some e6' →
  let out4 := get_ip_address "ipv4" proxy w in
  let out6 := get_ip_address "ipv6" proxy w in
  stderr (snd out4) = stderr w ++ ["Error fetching IPv4 address: " +:+ exn_str e4]
  ∧ stderr (snd out6) = stderr w ++ [ipv6_unsupported_msg]
  ∧ stderr (snd out4) ≠ stderr (snd out6)
  ∧ fst out4 = Raises (Exit 1)
  ∧ fst out6 = Raises (Exit 1).
Proof.
  intros H4 H6 H6'. cbn zeta.
  assert (get_ip_address "ipv4" proxy w
          = (Raises (Exit 1),
             log_stderr ("Error fetching IPv4 address: " +:+ exn_str e4)
               (log_call (echo_request "https://api.ipify.org" proxy) w))) as ->.
  { unfold get_ip_address.
    rewrite bool_decide_eq_true_2 by (apply elem_of_cons; by left).
    cbn [negb]. rewrite (bool_decide_eq_true_2 ("ipv4" = "ipv4")) by done.
    erewrite bind_returns; [|by erewrite try_urls_next by exact H4].
    rewrite (bool_decide_eq_false_2 ("ipv4" = "ipv6")) by done. done. }
  assert (get_ip_address "ipv6" proxy w
          = (Raises (Exit 1),
             log_stderr ipv6_unsupported_msg
               (log_call (echo_request "https://ipv6.icanhazip.com" proxy)
                  (log_call (echo_request "https://api6.ipify.org" proxy) w)))) as ->.
  { unfold get_ip_address.
    rewrite bool_decide_eq_true_2 by (apply elem_of_cons; right; apply elem_of_cons; by left).
    cbn [negb]. rewrite (bool_decide_eq_false_2 ("ipv6" = "ipv4")) by done.
    erewrite bind_returns;
      [|erewrite try_urls_next by exact H6; by erewrite try_urls_next by exact H6'].
    rewrite (bool_decide_eq_true_2 ("ipv6" = "ipv6")) by done. done. }
  cbn [fst snd stderr log_stderr log_call]. split_and!; try done.
  intros Heq. apply app_inv_head in Heq. by injection Heq.
Qed.

(** * Closed instances *)

Lemma us_record_nonempty : us_record ≠ ∅.
Proof.
  intros Heq. apply (f_equal (λ m : gmap string json, m !! "asn")) in Heq.
  vm_compute in Heq. discriminate Heq.
Defined.

Lemma no_file_is_miss ip skip net : cache_miss ip skip (world None t0 net).
Proof. right. intros e [Hs _]. discriminate Hs. Defined.

(** C1, as stated, fails on an entry whose record is the empty dict: the
    entry is within the TTL, yet the primary provider is asked and its
    answer, not the cached record, is returned. *)
Lemma cache_hit_empty_record_refetched :
  let e := {| timestamp := Q2Qc (inject_Z t0); info := ∅ |} in
  let w := world (Some {[ "1.2.3.4" := e ]}) t0 (net_ok (JObj us_record)) in
  let out := @get_ip_info scalar_format "1.2.3.4" None false w in
  fresh_entry w "1.2.3.4" e
  ∧ calls (snd out) = [primary_request "1.2.3.4" None]
  ∧ calls (snd out) ≠ calls w
  ∧ fst out = Returns us_record
  ∧ fst out ≠ Returns (info e).
Proof.
  cbn zeta. split_and!.
  - split; [by vm_compute|]. vm_compute. discriminate.
  - by vm_compute.
  - vm_compute. discriminate.
  - by vm_compute.
  - intros Heq. apply (f_equal (λ r, match r with
                                     | Returns d => d !! "asn"
                                     | Raises _ => None
                                     end)) in Heq.
    vm_compute in Heq. discriminate Heq.
Qed.

Lemma cache_hit_no_network_witness :
  let e := {| timestamp := Q2Qc (inject_Z t0); info := us_record |} in
  let w := world (Some {[ "1.2.3.4" := e ]}) (t0 + 3600) net_down in
  fresh_entry w "1.2.3.4" e
  ∧ fst (@get_ip_info scalar_format "1.2.3.4" None false w) = Returns us_record
  ∧ calls (snd (@get_ip_info scalar_format "1.2.3.4" None false w)) = [].
Proof.
  cbn zeta.
  assert (fresh_entry
            (world (Some {[ "1.2.3.4" := {| timestamp := Q2Qc (inject_Z t0);
                                            info := us_record |} ]})
               (t0 + 3600) net_down)
            "1.2.3.4" {| timestamp := Q2Qc (inject_Z t0); info := us_record |})
    as Hfresh.
  { split; [by vm_compute|]. vm_compute. discriminate. }
  split; [exact Hfresh|].
  destruct (cache_hit_no_network (fmt := scalar_format) "1.2.3.4" None _ _
              Hfresh us_record_nonempty) as (Hr & Hc & _).
  split; [exact Hr|exact Hc].
Defined.

(** The scenario of C2: the primary provider answers 429 and the secondary
    provider answers with data. *)
Lemma miss_primary_then_fallback_on_429_witness :
  let net := net_primary "1.2.3.4" 429 "Too Many Requests" JNull (JObj fallback_answer) in
  let w := world None t0 net in
  let out := @get_ip_info scalar_format "1.2.3.4" None false w in
  cache_miss "1.2.3.4" false w
  ∧ calls (snd out) = [primary_request "1.2.3.4" None; fallback_request "1.2.3.4" None]
  ∧ fst out = Returns (fallback_record fallback_answer)
  ∧ cache_file (snd out)
    = Some {[ "1.2.3.4" := {| timestamp := Q2Qc (inject_Z t0);
                              info := fallback_record fallback_answer |} ]}.
Proof.
  cbn zeta.
  pose proof (miss_primary_then_fallback_on_429 (fmt := scalar_format)
                "1.2.3.4" None false _
                (no_file_is_miss "1.2.3.4" false
                   (net_primary "1.2.3.4" 429 "Too Many Requests" JNull
                      (JObj fallback_answer))))
    as (Hcalls & _ & _ & Hfb & _).
  destruct (Hfb (json_response (fallback_url "1.2.3.4") 200 "OK" (JObj fallback_answer))
              fallback_answer)
    as [Hres Hfile]; [by vm_compute..|].
  split; [apply no_file_is_miss|].
  split; [exact Hcalls|]. split; [exact Hres|]. exact Hfile.
Defined.

(** The scenario of C3: the primary provider answers 200 with
    [{"error": "invalid"}]. *)
Lemma api_error_is_terminal_witness :
  let net := net_ok (JObj {[ "error" := JStr "invalid" ]}) in
  let w := world None t0 net in
  let out := @get_ip_info scalar_format "1.2.3.4" None false w in
  cache_miss "1.2.3.4" false w
  ∧ fst out = Raises (Exit 1)
  ∧ stderr (snd out) = ["API error: invalid"]
  ∧ calls (snd out) = [primary_request "1.2.3.4" None]
  ∧ cache_file (snd out) = None.
Proof.
  cbn zeta. split; [apply no_file_is_miss|].
  apply (api_error_is_terminal (fmt := scalar_format) "1.2.3.4" None false
           (world None t0 (net_ok (JObj {[ "error" := JStr "invalid" ]})))
           (json_response (primary_url "1.2.3.4") 200 "OK"
              (JObj {[ "error" := JStr "invalid" ]}))
           {[ "error" := JStr "invalid" ]} (JStr "invalid"));
    [apply no_file_is_miss|by vm_compute..].
Defined.

(** C3, as stated, fails when the error body comes with an HTTP error
    status: the body carries the error field, yet the diagnostic is the
    one of an HTTP error, not "API error: invalid". *)
Lemma api_error_field_with_http_404 :
  let body := {[ "error" := JStr "invalid" ]} in
  let net := net_primary "1.2.3.4" 404 "Not Found" (JObj body) JNull in
  let w := world None t0 net in
  let out := @get_ip_info scalar_format "1.2.3.4" None false w in
  network w (primary_request "1.2.3.4" None)
  = inr (json_response (primary_url "1.2.3.4") 404 "Not Found" (JObj body))
  ∧ body !! "error" = Some (JStr "invalid")
  ∧ stderr (snd out)
    = ["Error fetching IP information: 404 Client Error: Not Found for url: https://ipapi.co/1.2.3.4/json/"]
  ∧ stderr (snd out) ≠ ["API error: invalid"].
Proof.
  cbn zeta. split_and!.
  - by vm_compute.
  - by vm_compute.
  - by vm_compute.
  - vm_compute. discriminate.
Qed.

(** C4, as stated, fails on a response whose "country_name" field is the
    empty string: the field is there, yet the record takes "country". *)
Lemma fallback_skips_empty_country_name :
  let fbdata : gmap string json :=
    {[ "country_name" := JStr EmptyString; "country" := JStr "X";
       "city" := JStr "Y"; "latitude" := JNum (Q2Qc 1);
       "longitude" := JNum (Q2Qc 2); "IPv4" := JStr "Z" ]} in
  fbdata !! "country_name" = Some (JStr EmptyString)
  ∧ fallback_record fbdata !! "country_name" = Some (JStr "X")
  ∧ fallback_record_by_presence fbdata !! "country_name" = Some (JStr EmptyString)
  ∧ fallback_record fbdata ≠ fallback_record_by_presence fbdata.
Proof.
  cbn zeta. split_and!; [by vm_compute..|].
  intros Heq.
  apply (f_equal (λ m : gmap string json, m !! "country_name")) in Heq.
  vm_compute in Heq. discriminate Heq.
Qed.

(** The scenario of C5: no echo endpoint can be reached. *)
Lemma resolver_failure_kinds_witness :
  let w := world None t0 net_down in
  stderr (snd (get_ip_address "ipv4" None w))
  = ["Error fetching IPv4 address: Connection refused"]
  ∧ stderr (snd (get_ip_address "ipv6" None w)) = [ipv6_unsupported_msg]
  ∧ fst (get_ip_address "ipv4" None w) = Raises (Exit 1)
  ∧ fst (get_ip_address "ipv6" None w) = Raises (Exit 1).
Proof.
  cbn zeta.
  destruct (resolver_failure_kinds None (world None t0 net_down)
              (RequestException "Connection refused")
              (RequestException "Connection refused")
              (RequestException "Connection refused")
              eq_refl eq_refl eq_refl)
    as (H4 & H6 & _ & Hx4 & Hx6).
  split; [exact H4|]. split; [exact H6|]. split; [exact Hx4|exact Hx6].
Defined.

(** C5, as stated, fails on what reaches the caller: with no endpoint
    reachable, the call for "ipv6" and the call for "ipv4" raise the same
    exception. *)
Lemma resolver_failures_same_exception :
  let w := world None t0 net_down in
  fst (get_ip_address "ipv6" None w) = Raises (Exit 1)
  ∧ fst (get_ip_address "ipv4" None w) = Raises (Exit 1)
  ∧ ¬ (fst (get_ip_address "ipv6" None w) ≠ fst (get_ip_address "ipv4" None w)).
Proof.
  cbn zeta. split_and!; [by vm_compute..|]. intros Hne. by apply Hne.
Qed.

(** A save followed by a load one second later. *)
Lemma save_then_load_roundtrip_witness :
  let w := world None t0 net_down in
  fst (load_cache "1.2.3.4" (snd (save_cache "1.2.3.4" us_record w)))
  = Returns (Some us_record).
Proof.
  cbn zeta.
  refine (proj2 (save_then_load_roundtrip "1.2.3.4" us_record
                   (world None t0 net_down) _)).
  vm_compute. discriminate.
Defined.

(** With [skip_cache = True] a fresh cached record is passed over: the
    provider is asked and its answer replaces the entry. *)
Lemma skip_cache_bypasses_read_witness :
  let e := {| timestamp := Q2Qc (inject_Z t0); info := us_record |} in
  let w := world (Some {[ "1.2.3.4" := e ]}) t0 (net_ok (JObj fallback_answer)) in
  let out := @get_ip_info scalar_format "1.2.3.4" None true w in
  fresh_entry w "1.2.3.4" e
  ∧ fst out = Returns fallback_answer
  ∧ calls (snd out) = [primary_request "1.2.3.4" None]
  ∧ stored (snd out) "1.2.3.4"
    = Some {| timestamp := Q2Qc (inject_Z t0); info := fallback_answer |}.
Proof.
  cbn zeta. split; [split; [by vm_compute|vm_compute; discriminate]|].
  split; [by vm_compute|]. split; [by vm_compute|].
  refine (proj2 (proj2 (proj2 (skip_cache_bypasses_read (fmt := scalar_format)
                                 "1.2.3.4" None _)) fallback_answer _)).
  by vm_compute.
Defined.

(** Saving one IP leaves the entry of another as it is. *)
Lemma save_cache_frame_witness :
  let e := {| timestamp := 0; info := us_record |} in
  let w := world (Some {[ "8.8.8.8" := e ]}) t0 net_down in
  stored (snd (save_cache "1.2.3.4" fallback_answer w)) "8.8.8.8" = Some e.
Proof.
  cbn zeta.
  refine (eq_trans
            (proj2 (proj2 (proj2 (save_cache_frame "1.2.3.4" fallback_answer _)))
               "8.8.8.8" _) _).
  - discriminate.
  - by vm_compute.
Defined.

(** A lookup that fails on the network leaves the cache file as it is. *)
Lemma failure_leaves_cache_unchanged_witness :
  let f := Some {[ "8.8.8.8" := {| timestamp := 0; info := us_record |} ]} in
  let w := world f t0 net_down in
  let out := @get_ip_info scalar_format "1.2.3.4" None false w in
  fst out = Raises (Exit 1)
  ∧ stderr (snd out) = ["Network error fetching IP information: Connection refused"]
  ∧ cache_file (snd out) = f.
Proof.
  cbn zeta. split; [by vm_compute|]. split; [by vm_compute|].
  refine (proj1 (failure_leaves_cache_unchanged (fmt := scalar_format)
                   "1.2.3.4" None false _) (Exit 1) _).
  by vm_compute.
Defined.

(** * Further properties of the cache store *)

(** X1.  [load_cache] is read-only: whatever it returns, the cache file is
    left as it was (an expired entry is passed over, not removed), no
    request is issued and nothing is written to stderr. *)
Theorem load_cache_read_only ip w :
  cache_file (snd (load_cache ip w)) = cache_file w
  ∧ stored (snd (load_cache ip w)) ip = stored w ip
  ∧ calls (snd (load_cache ip w)) = calls w
  ∧ stderr (snd (load_cache ip w)) = stderr w
  ∧ network (snd (load_cache ip w)) = network w.
Proof.
  unfold stored.
  destruct (load_cache_cases ip w)
    as [[_ ->]|[(? & _ & _ & ->)|[(? & ? & _ & _ & _ & ->)
       |(? & ? & _ & _ & _ & ->)]]]; done.
Qed.

(** X2.  Last write wins: two saves under the same IP leave exactly the
    world that the second save alone leaves when run at the later clock
    reading; nothing of the first record remains. *)
Theorem save_cache_last_write_wins ip r1 r2 w :
  snd (save_cache ip r2 (snd (save_cache ip r1 w)))
  = snd (save_cache ip r2 (tick w)).
Proof.
  rewrite !save_cache_run. cbn [snd]. unfold upsert, now.
  cbn [cache_file set_cache_file tick clock ticks default from_option id].
  unfold set_cache_file, tick. cbn [cache_file clock ticks network calls stderr].
  by rewrite insert_insert_eq.
Qed.

(** X3.  A record saved under one IP survives a later save under another
    IP: a load of the first IP, taken while the first entry is within the
    TTL, returns the first record. *)
Theorem save_other_then_load ip1 ip2 r1 r2 w :
  ip1 ≠ ip2 →
  (clock w (S (S (ticks w))) - clock w (ticks w) <= CACHE_TTL)%Qc →
  fst (load_cache ip1 (snd (save_cache ip2 r2 (snd (save_cache ip1 r1 w)))))
  = Returns (Some r1).
Proof.
  intros Hne Httl. rewrite !save_cache_run. cbn [snd].
  rewrite (load_cache_fresh ip1 _
             (upsert (Some (upsert (cache_file w) ip1 (now w) r1)) ip2
                (clock w (S (ticks w))) r2)
             {| timestamp := now w; info := r1 |});
    [done|done| |exact Httl].
  unfold upsert. cbn [default from_option id].
  rewrite lookup_insert_ne by done. apply lookup_insert_eq.
Qed.

(** X4.  Expiry is monotone in the clock: an entry that is expired at some
    reading is found expired by [load_cache] at every later reading. *)
Theorem expired_stays_expired ip e t w :
  stored w ip = Some e →
  (CACHE_TTL < t - timestamp e)%Qc →
  (t <= now w)%Qc →
  fst (load_cache ip w) = Returns None.
Proof.
  intros Hst Hexp Hle. unfold stored in Hst.
  destruct (cache_file w) as [data|] eqn:Hf; [|done]. cbn in Hst.
  rewrite (load_cache_expired ip w data e); [done|done|done|].
  unfold expired. eapply Qclt_le_trans; [exact Hexp|].
  unfold Qcminus. apply Qcplus_le_compat; [done|apply Qcle_refl].
Qed.

(** X5.  An entry stamped later than the current clock reading (the clock
    was set back) is served: its age is negative, hence within the TTL. *)
Theorem future_timestamp_is_served ip e w :
  stored w ip = Some e →
  (now w <= timestamp e)%Qc →
  fst (load_cache ip w) = Returns (Some (info e)).
Proof.
  intros Hst Hle. unfold stored in Hst.
  destruct (cache_file w) as [data|] eqn:Hf; [|done]. cbn in Hst.
  rewrite (load_cache_fresh ip w data e); [done|done|done|].
  unfold within_ttl. apply Qcle_trans with 0%Qc; [|done].
  apply Qcle_minus_iff in Hle. apply Qcle_minus_iff.
  replace (0 + - (now w - timestamp e))%Qc with (timestamp e + - now w)%Qc by ring.
  exact Hle.
Qed.

(** * Further properties of the address resolver *)



(** What the loop does in every case. *)
Lemma try_urls_frame urls proxy last w :
  cache_file (snd (try_urls urls (make_proxies proxy) last w)) = cache_file w
  ∧ clock (snd (try_urls urls (make_proxies proxy) last w)) = clock w
  ∧ ticks (snd (try_urls urls (make_proxies proxy) last w)) = ticks w
  ∧ stderr (snd (try_urls urls (make_proxies proxy) last w)) = stderr w
  ∧ (∃ n, calls (snd (try_urls urls (make_proxies proxy) last w))
          = calls w ++ map (λ u, echo_request u proxy) (take n urls))
  ∧ (∀ x, fst (try_urls urls (make_proxies proxy) last w) = Raises x →
          is_RequestException x = false).
Proof.
  revert last w. induction urls as [|u urls IH]; intros last w.
  - cbn. split_and!; try done. exists 0. by rewrite app_nil_r.
  - assert (Hnext : ∀ e, cache_file (snd (try_urls urls (make_proxies proxy) (Some e)
                                       (log_call (echo_request u proxy) w)))
                         = cache_file w
              ∧ clock (snd (try_urls urls (make_proxies proxy) (Some e)
                              (log_call (echo_request u proxy) w))) = clock w
              ∧ ticks (snd (try_urls urls (make_proxies proxy) (Some e)
                              (log_call (echo_request u proxy) w))) = ticks w
              ∧ stderr (snd (try_urls urls (make_proxies proxy) (Some e)
                               (log_call (echo_request u proxy) w))) = stderr w
              ∧ (∃ n, calls (snd (try_urls urls (make_proxies proxy) (Some e)
                                    (log_call (echo_request u proxy) w)))
                      = calls w ++ map (λ u, echo_request u proxy) (take n (u :: urls)))
              ∧ (∀ x, fst (try_urls urls (make_proxies proxy) (Some e)
                             (log_call (echo_request u proxy) w)) = Raises x →
                      is_RequestException x = false)).
    { intros e.
      destruct (IH (Some e) (log_call (echo_request u proxy) w))
        as (Hf & Hc & Ht & He & [n Hn] & Hx).
      split_and!; try done. exists (S n). rewrite Hn. cbn [calls log_call take map].
      by rewrite <- app_assoc. }
    assert (Hone : calls (log_call (echo_request u proxy) w)
                   = calls w ++ map (λ u, echo_request u proxy) (take 1 (u :: urls))).
    { done. }
    cbn [try_urls]. unfold requests_get. unfold_M. fold (echo_request u proxy).
    destruct (network w (echo_request u proxy)) as [x|resp]; cbn beta iota zeta.
    + destruct (is_RequestException x) eqn:Hx; [apply Hnext|].
      cbn [fst snd]. split_and!; try done; [by exists 1|].
      by intros ? [= <-].
    + destruct (is_http_error resp) eqn:Hr.
      * rewrite raise_for_status_error by done. cbn beta iota zeta.
        cbn [is_RequestException]. apply Hnext.
      * rewrite raise_for_status_ok by done. cbn beta iota zeta.
        cbn [fst snd]. split_and!; try done. by exists 1.
Qed.

(** X6.  An IP version other than "ipv4" and "ipv6" is refused before
    anything else happens: the call ends with [Exit(1)] after one
    diagnostic, without any request. *)
Theorem resolver_rejects_other_versions ip_type proxy w :
  ip_type ≠ "ipv4" → ip_type ≠ "ipv6" →
  get_ip_address ip_type proxy w
  = (Raises (Exit 1),
     log_stderr "Error: invalid IP type specified. Must be 'ipv4' or 'ipv6'." w).
Proof.
  intros H4 H6. unfold get_ip_address.
  rewrite bool_decide_eq_false_2; [done|].
  rewrite !elem_of_cons, elem_of_nil. by intros [?|[?|[]]].
Qed.


(** X8.  [get_ip_address] never touches the cache file or the clock; the
    requests it issues are the version's endpoints in order, up to some
    point, each with the caller's proxy setting, [verify=False] and a
    5-second timeout; and a [RequestException] never escapes from it. *)
Theorem resolver_frame ip_type proxy w :
  cache_file (snd (get_ip_address ip_type proxy w)) = cache_file w
  ∧ clock (snd (get_ip_address ip_type proxy w)) = clock w
  ∧ ticks (snd (get_ip_address ip_type proxy w)) = ticks w
  ∧ (∃ n, calls (snd (get_ip_address ip_type proxy w))
          = calls w ++ map (λ u, echo_request u proxy)
                         (take n (echo_endpoints ip_type)))
  ∧ (∀ x, fst (get_ip_address ip_type proxy w) = Raises x →
          is_RequestException x = false).
Proof.
  unfold get_ip_address.
  destruct (bool_decide (ip_type ∈ ["ipv4"; "ipv6"])); cbn [negb].
  2:{ unfold echo_err. unfold_M. cbn. split_and!; try done.
      - exists 0. by rewrite app_nil_r.
      - by intros ? [= <-]. }
  cbn zeta. fold (echo_endpoints ip_type).
  destruct (try_urls_frame (echo_endpoints ip_type) proxy None w)
    as (Hf & Hc & Ht & He & Hn & Hx).
  unfold echo_err. unfold_M.
  destruct (try_urls (echo_endpoints ip_type) (make_proxies proxy) None w)
    as [[[ip|last]|x] w1]; cbn [fst snd] in *.
  - by split_and!.
  - destruct (bool_decide (ip_type = "ipv6")); cbn;
      (split_and!; try done; by intros ? [= <-]).
  - split_and!; try done. intros ? [= <-]. by apply Hx.
Qed.

(** * Further properties of the geolocation lookup *)

Section LookupMore.
Context {fmt : PyFormat}.

(** [requests.get] fails on the primary provider with an error that is
    not an [HTTPError]. *)
Lemma lookup_providers_transport_failure ip proxy w msg :
  network w (primary_request ip proxy) = inl (RequestException msg) →
  lookup_providers ip (make_proxies proxy) w
  = (Raises (Exit 1),
     log_stderr ("Network error fetching IP information: " +:+ msg)
       (log_call (primary_request ip proxy) w)).
Proof.
  intros Hnet. run_providers ip proxy. by rewrite Hnet.
Qed.

(** The primary provider is rate limited and the secondary fails. *)
Lemma lookup_providers_fallback_failure ip proxy w e2 :
  rate_limited (network w (primary_request ip proxy)) = true →
  endpoint_error (network w (fallback_request ip proxy)) = Some e2 →
  lookup_providers ip (make_proxies proxy) w
  = (Raises (Exit 1),
     log_stderr ("Fallback service error: " +:+ exn_str e2)
       (log_call (fallback_request ip proxy)
          (log_stderr "Rate limit reached on ipapi.co, using fallback..."
             (log_call (primary_request ip proxy) w)))).
Proof.
  intros Hrl Hfb.
  assert (Hfail : ∀ w1, network w1 = network w →
            try_except (query_fallback ip (make_proxies proxy))
              (λ e2, if is_RequestException e2 then
                       _ ← echo_err ("Fallback service error: " +:+ exn_str e2);
                       raise (Exit 1)
                     else raise e2) w1
            = (Raises (Exit 1),
               log_stderr ("Fallback service error: " +:+ exn_str e2)
                 (log_call (fallback_request ip proxy) w1))).
  { intros w1 Hn. unfold query_fallback, requests_get, echo_err. unfold_M.
    fold (fallback_request ip proxy). rewrite Hn.
    destruct (network w (fallback_request ip proxy)) as [x|fb];
      cbn [endpoint_error] in Hfb; cbn beta iota zeta.
    - destruct (is_RequestException x) eqn:Hx; [|done]. by simplify_eq.
    - destruct (is_http_error fb) eqn:Hst; [|done]. simplify_eq.
      by rewrite raise_for_status_error by done. }
  unfold lookup_providers, query_primary, on_primary_error, requests_get.
  unfold mbind at 1 2, M_bind at 1 2, bind at 1 2, try_except at 1.
  fold (primary_request ip proxy).
  destruct (network w (primary_request ip proxy)) as [e|resp] eqn:Hp;
    cbn [rate_limited] in Hrl; cbn beta iota zeta.
  - destruct e; try discriminate. rewrite Hrl.
    unfold mbind at 1, M_bind at 1, bind at 1, echo_err at 1.
    cbn beta iota zeta. by rewrite Hfail.
  - rewrite raise_for_status_error by by apply rate_limit_is_http_error.
    cbn beta iota zeta. cbn [is_rate_limit]. rewrite Hrl.
    unfold mbind at 1, M_bind at 1, bind at 1, echo_err at 1.
    cbn beta iota zeta. by rewrite Hfail.
Qed.

(** The primary provider answers with JSON that is not an object. *)
Lemma lookup_providers_not_object ip proxy w resp v :
  network w (primary_request ip proxy) = inr resp →
  is_http_error resp = false →
  json_body resp = Some v →
  (∀ d, v ≠ JObj d) →
  ∃ msg, lookup_providers ip (make_proxies proxy) w
         = (Raises (AttributeError msg), log_call (primary_request ip proxy) w).
Proof.
  intros Hnet Hst Hbody Hv. run_providers ip proxy.
  rewrite Hnet. cbn beta iota zeta.
  rewrite raise_for_status_ok by done. cbn beta iota zeta.
  rewrite Hbody. cbn beta iota zeta.
  destruct v; cbn beta iota zeta; eauto. by destruct (Hv m).
Qed.

(** No [RequestException] escapes from the [try] statement. *)
Lemma lookup_providers_no_request_exception ip proxy w x :
  fst (lookup_providers ip (make_proxies proxy) w) = Raises x →
  is_RequestException x = false.
Proof.
  run_providers ip proxy. repeat run_step; cbn [fst].
  all: intros [= <-]; try done.
Qed.

End LookupMore.

Section LookupOutcomes.
Context {fmt : PyFormat}.

(** X9.  On a cache miss, when the primary provider answers with a
    non-error status and a JSON object without a truthy "error" field, that
    object is returned as sent, whatever its fields; it is stored under
    the IP with the current time; one request has been issued and nothing
    is written to stderr. *)
Theorem primary_answer_returned_and_cached ip proxy skip w resp data :
  cache_miss ip skip w →
  network w (primary_request ip proxy) = inr resp →
  is_http_error resp = false →
  json_body resp = Some (JObj data) →
  truthy (dict_get data "error") = false →
  fst (get_ip_info ip proxy skip w) = Returns data
  ∧ calls (snd (get_ip_info ip proxy skip w)) = calls w ++ [primary_request ip proxy]
  ∧ stderr (snd (get_ip_info ip proxy skip w)) = stderr w
  ∧ cache_file (snd (get_ip_info ip proxy skip w))
    = Some (<[ip := {| timestamp := now (after_cache_check ip skip w);
                       info := data |}]>
              (default ∅ (cache_file w))).
Proof.
  intros Hmiss Hnet Hst Hbody Herr.
  rewrite (get_ip_info_miss ip proxy skip w Hmiss).
  destruct (after_cache_check_frame ip skip w) as (Hf1 & Hc1 & Hn1 & Hcalls1 & He1).
  set (w1 := after_cache_check ip skip w) in *.
  rewrite fetch_ip_info_run.
  rewrite (lookup_providers_primary_ok ip proxy w1 resp data)
    by (rewrite ?Hn1; done).
  cbn [fst snd cache_file stderr calls set_cache_file tick log_call].
  unfold upsert, now. cbn [cache_file clock ticks log_call].
  by rewrite Hf1, He1, Hcalls1.
Qed.

(** X10.  On a cache miss, when the request to the primary provider fails
    below HTTP (connection, timeout, TLS), the call ends with [Exit(1)]
    after the diagnostic "Network error fetching IP information: ...";
    the secondary provider is not tried and the cache file is unchanged. *)
Theorem transport_failure_is_terminal ip proxy skip w msg :
  cache_miss ip skip w →
  network w (primary_request ip proxy) = inl (RequestException msg) →
  fst (get_ip_info ip proxy skip w) = Raises (Exit 1)
  ∧ stderr (snd (get_ip_info ip proxy skip w))
    = stderr w ++ ["Network error fetching IP information: " +:+ msg]
  ∧ calls (snd (get_ip_info ip proxy skip w)) = calls w ++ [primary_request ip proxy]
  ∧ cache_file (snd (get_ip_info ip proxy skip w)) = cache_file w.
Proof.
  intros Hmiss Hnet.
  rewrite (get_ip_info_miss ip proxy skip w Hmiss).
  destruct (after_cache_check_frame ip skip w) as (Hf1 & Hc1 & Hn1 & Hcalls1 & He1).
  set (w1 := after_cache_check ip skip w) in *.
  rewrite fetch_ip_info_run.
  rewrite (lookup_providers_transport_failure ip proxy w1 msg)
    by (rewrite ?Hn1; done).
  cbn [fst snd cache_file stderr calls log_call log_stderr].
  by rewrite Hf1, He1, Hcalls1.
Qed.

(** X11.  On a cache miss, when the primary provider answers 429 and the
    secondary provider fails (its request raises, or it answers with an
    error status), the call ends with [Exit(1)] after the rate-limit
    notice and the diagnostic "Fallback service error: ..."; there is no
    third provider, two requests have been issued and the cache file is
    unchanged. *)
Theorem fallback_failure_is_terminal ip proxy skip w e2 :
  cache_miss ip skip w →
  rate_limited (network w (primary_request ip proxy)) = true →
  endpoint_error (network w (fallback_request ip proxy)) = Some e2 →
  fst (get_ip_info ip proxy skip w) = Raises (Exit 1)
  ∧ stderr (snd (get_ip_info ip proxy skip w))
    = stderr w ++ ["Rate limit reached on ipapi.co, using fallback...";
                   "Fallback service error: " +:+ exn_str e2]
  ∧ calls (snd (get_ip_info ip proxy skip w))
    = calls w ++ [primary_request ip proxy; fallback_request ip proxy]
  ∧ cache_file (snd (get_ip_info ip proxy skip w)) = cache_file w.
Proof.
  intros Hmiss Hrl Hfb.
  rewrite (get_ip_info_miss ip proxy skip w Hmiss).
  destruct (after_cache_check_frame ip skip w) as (Hf1 & Hc1 & Hn1 & Hcalls1 & He1).
  set (w1 := after_cache_check ip skip w) in *.
  rewrite fetch_ip_info_run.
  rewrite (lookup_providers_fallback_failure ip proxy w1 e2)
    by (rewrite ?Hn1; done).
  cbn [fst snd cache_file stderr calls log_call log_stderr].
  rewrite Hf1, He1, Hcalls1. by rewrite <- !app_assoc.
Qed.

(** X12.  On a cache miss, when the primary provider answers with a
    non-error status and a JSON document that is not an object (a list, a
    string, a number, [null]), the lookup of its "error" field raises an
    [AttributeError] that no handler catches: it reaches the caller
    without any diagnostic, and the cache file is unchanged. *)
Theorem non_object_body_escapes ip proxy skip w resp v :
  cache_miss ip skip w →
  network w (primary_request ip proxy) = inr resp →
  is_http_error resp = false →
  json_body resp = Some v →
  (∀ d, v ≠ JObj d) →
  (∃ msg, fst (get_ip_info ip proxy skip w) = Raises (AttributeError msg))
  ∧ stderr (snd (get_ip_info ip proxy skip w)) = stderr w
  ∧ cache_file (snd (get_ip_info ip proxy skip w)) = cache_file w.
Proof.
  intros Hmiss Hnet Hst Hbody Hv.
  rewrite (get_ip_info_miss ip proxy skip w Hmiss).
  destruct (after_cache_check_frame ip skip w) as (Hf1 & Hc1 & Hn1 & Hcalls1 & He1).
  set (w1 := after_cache_check ip skip w) in *.
  rewrite fetch_ip_info_run.
  destruct (lookup_providers_not_object ip proxy w1 resp v) as [msg ->];
    try done; [by rewrite Hn1|].
  cbn [fst snd cache_file stderr log_call]. rewrite Hf1, He1. eauto.
Qed.

(** X13.  A [RequestException] never escapes from [get_ip_info]: every
    failure of [requests] is turned into [Exit(1)]. *)
Theorem lookup_no_request_exception ip proxy skip w x :
  fst (get_ip_info ip proxy skip w) = Raises x →
  is_RequestException x = false.
Proof.
  destruct (get_ip_info_cases ip proxy skip w)
    as [(e & _ & _ & _ & ->)|[_ ->]]; [done|].
  rewrite fetch_ip_info_run.
  pose proof (lookup_providers_no_request_exception ip proxy
                (after_cache_check ip skip w)) as Hx.
  destruct (lookup_providers ip (make_proxies proxy) _) as [[d|y] w1];
    cbn [fst] in *; [done|]. intros [= <-]. by apply Hx.
Qed.

(** X14.  Whatever happens, [get_ip_info] issues no request, or the
    primary request alone, or the primary request followed by the
    fallback request; each carries the caller's proxy setting,
    [verify=False] and a 5-second timeout. *)
Theorem lookup_requests ip proxy skip w :
  let new_calls :=
    drop (length (calls w)) (calls (snd (get_ip_info ip proxy skip w))) in
  (new_calls = [] ∨ new_calls = [primary_request ip proxy]
   ∨ new_calls = [primary_request ip proxy; fallback_request ip proxy])
  ∧ (∀ r, r ∈ new_calls →
       req_proxies r = make_proxies proxy ∧ req_verify r = false
       ∧ req_timeout r = 5%Z).
Proof.
  cbn zeta.
  assert (drop (length (calls w)) (calls (snd (get_ip_info ip proxy skip w))) = []
          ∨ drop (length (calls w)) (calls (snd (get_ip_info ip proxy skip w)))
            = [primary_request ip proxy]
          ∨ drop (length (calls w)) (calls (snd (get_ip_info ip proxy skip w)))
            = [primary_request ip proxy; fallback_request ip proxy]) as Hnew.
  { destruct (get_ip_info_cases ip proxy skip w)
      as [(e & _ & _ & _ & ->)|[Hmiss _]].
    - left. cbn [snd calls tick]. by rewrite drop_all.
    - destruct (miss_primary_then_fallback_on_429 ip proxy skip w Hmiss)
        as (-> & _).
      destruct (rate_limited _); auto. }
  split; [exact Hnew|]. intros r Hr.
  destruct Hnew as [Hn|[Hn|Hn]]; rewrite Hn in Hr.
  - by apply elem_of_nil in Hr.
  - by apply list_elem_of_singleton in Hr as ->.
  - apply elem_of_cons in Hr as [->|Hr]; [done|].
    by apply list_elem_of_singleton in Hr as ->.
Qed.

(** X15.  A lookup that went to the network and returned a non-empty
    record is answered from the cache the next time: a second lookup of
    the same IP with [skip_cache = False], while the entry is within the
    TTL, returns the same record without any request, whatever the proxy
    and whatever the services would answer now. *)
Theorem second_lookup_from_cache ip proxy proxy' skip w r :
  cache_miss ip skip w →
  fst (get_ip_info ip proxy skip w) = Returns r →
  r ≠ ∅ →
  (now (snd (get_ip_info ip proxy skip w)) - now (after_cache_check ip skip w)
   <= CACHE_TTL)%Qc →
  fst (get_ip_info ip proxy' false (snd (get_ip_info ip proxy skip w))) = Returns r
  ∧ calls (snd (get_ip_info ip proxy' false (snd (get_ip_info ip proxy skip w))))
    = calls (snd (get_ip_info ip proxy skip w)).
Proof.
  intros Hmiss. rewrite (get_ip_info_miss ip proxy skip w Hmiss).
  set (w1 := after_cache_check ip skip w) in *.
  rewrite fetch_ip_info_run.
  destruct (lookup_providers ip (make_proxies proxy) w1) as [[d|y] w2] eqn:Hl;
    cbn [fst snd]; [|done].
  intros [= ->] Hne Httl.
  destruct (lookup_providers_frame ip proxy w1) as (Hf & Hc & Ht & _).
  rewrite Hl in Hf, Hc, Ht. cbn [snd] in Hf, Hc, Ht.
  rewrite (get_ip_info_hit ip proxy' _ {| timestamp := now w2; info := r |});
    [done| |done].
  split.
  - unfold stored, upsert. cbn. apply lookup_insert_eq.
  - unfold now in *. cbn [clock ticks set_cache_file tick timestamp] in *.
    by rewrite Hc, Ht in *.
Qed.

(** X16.  An expired entry is replaced by the next successful lookup: the
    provider's answer is returned, not the stale record, and the entry
    then holds the answer stamped with the clock reading taken after the
    one that found the entry expired. *)
Theorem stale_entry_refreshed ip proxy w e resp data :
  stored w ip = Some e →
  (CACHE_TTL < now w - timestamp e)%Qc →
  network w (primary_request ip proxy) = inr resp →
  is_http_error resp = false →
  json_body resp = Some (JObj data) →
  truthy (dict_get data "error") = false →
  fst (get_ip_info ip proxy false w) = Returns data
  ∧ stored (snd (get_ip_info ip proxy false w)) ip
    = Some {| timestamp := clock w (S (ticks w)); info := data |}.
Proof.
  intros Hst Hexp Hnet Hok Hbody Herr.
  assert (cache_miss ip false w) as Hmiss.
  { right. intros e' [Hst' Hin]. rewrite Hst in Hst'. simplify_eq.
    by apply expired_iff_not_within in Hexp. }
  destruct (primary_answer_returned_and_cached ip proxy false w resp data)
    as (Hr & _ & _ & Hfile); try done.
  split; [done|]. unfold stored. rewrite Hfile. cbn.
  rewrite lookup_insert_eq. unfold after_cache_check, now.
  unfold stored in Hst. destruct (cache_file w) as [d|] eqn:Hf; [|done].
  cbn in Hst. by rewrite (load_cache_expired ip w d e).
Qed.

End LookupOutcomes.

(** X17.  Whatever the secondary provider answers, the record built from
    it has exactly the six fields of a GeoRecord, and its four text fields
    hold truthy values; in particular it is never the empty record, so a
    cached fallback record always counts as a cache hit. *)
Theorem fallback_record_shape fbdata :
  dom (fallback_record fbdata)
  = ({[ "country_name"; "city"; "latitude"; "longitude"; "org"; "asn" ]} : gset string)
  ∧ (∀ k, k ∈ ["country_name"; "city"; "org"; "asn"] →
       ∃ v, fallback_record fbdata !! k = Some v ∧ truthy v = true)
  ∧ fallback_record fbdata ≠ ∅.
Proof.
  assert (Hor : ∀ x y, truthy y = true → truthy (py_or x y) = true).
  { intros x y Hy. unfold py_or. by destruct (truthy x) eqn:Hx. }
  split_and!.
  - unfold fallback_record. rewrite !dom_insert_L, dom_singleton_L. set_solver.
  - intros k Hk. unfold fallback_record.
    rewrite !elem_of_cons, elem_of_nil in Hk.
    destruct Hk as [->|[->|[->|[->|[]]]]]; simplify_map_eq;
      (eexists; split; [done|]); auto.
  - intros Heq. apply (f_equal (λ m : gmap string json, m !! "asn")) in Heq.
    unfold fallback_record in Heq. by simplify_map_eq.
Qed.

(** * Properties of the command *)

Ltac unfold_C := unfold mbind, C_bind, mret, C_ret, lift, echo.

Section CommandFacts.
Context {fmt : PyFormat}.

(** X18.  With a non-empty [--target-ip] the address resolver is not
    used and the IP version is not even validated: the run does not depend
    on [ip_type], its effects on the world are exactly those of
    [get_ip_info] on the target, and it fails exactly when that lookup
    fails, with the same exception. *)
Theorem main_with_target_skips_resolver ip_type ip_type' target proxy no_cache c :
  target ≠ EmptyString →
  main ip_type (Some target) proxy no_cache c
  = main ip_type' (Some target) proxy no_cache c
  ∧ env (snd (main ip_type (Some target) proxy no_cache c))
    = snd (get_ip_info target proxy no_cache (env c))
  ∧ fst (main ip_type (Some target) proxy no_cache c)
    = match fst (get_ip_info target proxy no_cache (env c)) with
      | Returns _ => Returns ()
      | Raises x => Raises x
      end.
Proof.
  intros Hne.
  assert (opt_truthy (Some target) = true) as Ht.
  { unfold opt_truthy, str_truthy. by rewrite bool_decide_eq_false_2. }
  unfold main. rewrite Ht. split; [done|]. unfold_C.
  destruct (opt_truthy proxy); cbn [env stdout default from_option id];
    destruct (get_ip_info target proxy no_cache (env c)) as [[info|x] w1]; done.
Qed.


(** X20.  Without a target IP, when the resolver returns an address, the
    command looks up exactly that address, with the same proxy and with
    [skip_cache] set by [--no-cache], in the world the resolver left. *)
Theorem main_looks_up_resolved_address ip_type target proxy no_cache c ip :
  opt_truthy target = false →
  fst (get_ip_address ip_type proxy (env c)) = Returns ip →
  env (snd (main ip_type target proxy no_cache c))
  = snd (get_ip_info ip proxy no_cache (snd (get_ip_address ip_type proxy (env c))))
  ∧ fst (main ip_type target proxy no_cache c)
    = match fst (get_ip_info ip proxy no_cache
                   (snd (get_ip_address ip_type proxy (env c)))) with
      | Returns _ => Returns ()
      | Raises x => Raises x
      end.
Proof.
  intros Ht Hip. unfold main. rewrite Ht. unfold_C.
  destruct (opt_truthy proxy); cbn [env stdout];
    destruct (get_ip_address ip_type proxy (env c)) as [[ip'|y] w1];
    cbn [fst snd env stdout] in *; try done; simplify_eq;
    destruct (get_ip_info ip proxy no_cache w1) as [[info|x] w2]; done.
Qed.

(** X21.  When the lookup of a target IP returns a record, the command
    succeeds and appends to stdout the target line, the header and six
    lines, one per field in the order country, city, latitude, longitude,
    ISP, ASN; a field the record lacks is shown as "N/A" and a string
    field is shown as it is. *)
Theorem main_report ip_type target proxy no_cache c info :
  target ≠ EmptyString →
  fst (get_ip_info target proxy no_cache (env c)) = Returns info →
  fst (main ip_type (Some target) proxy no_cache c) = Returns ()
  ∧ stdout (snd (main ip_type (Some target) proxy no_cache c))
    = stdout c
      ++ (if opt_truthy proxy
          then ["Using proxy: " +:+ default EmptyString proxy] else [])
      ++ [ "Using target IP: " +:+ target;
           report_header;
           "  Country  : " +:+ field_text info "country_name";
           "  City     : " +:+ field_text info "city";
           "  Latitude : " +:+ field_text info "latitude";
           "  Longitude: " +:+ field_text info "longitude";
           "  ISP      : " +:+ field_text info "org";
           "  ASN      : " +:+ field_text info "asn" ]
  ∧ (∀ k, info !! k = None → field_text info k = "N/A")
  ∧ (∀ k s, info !! k = Some (JStr s) → field_text info k = s).
Proof.
  intros Hne Hinfo.
  assert (opt_truthy (Some target) = true) as Ht.
  { unfold opt_truthy, str_truthy. by rewrite bool_decide_eq_false_2. }
  split_and!.
  - unfold main. rewrite Ht. unfold_C.
    destruct (opt_truthy proxy); cbn [env stdout default from_option id];
      destruct (get_ip_info target proxy no_cache (env c)) as [[i|x] w1];
      cbn [fst] in *; by simplify_eq.
  - unfold main. rewrite Ht. unfold_C.
    destruct (opt_truthy proxy); cbn [env stdout default from_option id];
      destruct (get_ip_info target proxy no_cache (env c)) as [[i|x] w1];
      cbn [fst snd stdout] in *; simplify_eq;
      by rewrite <- ?app_assoc.
  - intros k Hk. unfold field_text. by rewrite Hk.
  - intros k s Hk. unfold field_text. by rewrite Hk.
Qed.

End CommandFacts.

(** * Closed instances of the further properties *)

Lemma save_other_then_load_witness :
  fst (load_cache "1.2.3.4"
         (snd (save_cache "8.8.8.8" fallback_answer
                 (snd (save_cache "1.2.3.4" us_record (world None t0 net_down))))))
  = Returns (Some us_record).
Proof.
  refine (save_other_then_load "1.2.3.4" "8.8.8.8" us_record fallback_answer
            (world None t0 net_down) _ _).
  - discriminate.
  - vm_compute. discriminate.
Defined.

Lemma expired_stays_expired_witness :
  let e := {| timestamp := 0; info := us_record |} in
  fst (load_cache "1.2.3.4" (world (Some {[ "1.2.3.4" := e ]}) t0 net_down))
  = Returns None.
Proof.
  cbn zeta.
  refine (expired_stays_expired "1.2.3.4" {| timestamp := 0; info := us_record |}
            (Q2Qc (inject_Z 100000)) _ _ _ _).
  - by vm_compute.
  - by vm_compute.
  - vm_compute. discriminate.
Defined.

Lemma future_timestamp_is_served_witness :
  let e := {| timestamp := Q2Qc (inject_Z (t0 + 500)); info := us_record |} in
  fst (load_cache "1.2.3.4" (world (Some {[ "1.2.3.4" := e ]}) t0 net_down))
  = Returns (Some us_record).
Proof.
  cbn zeta.
  refine (future_timestamp_is_served "1.2.3.4"
            {| timestamp := Q2Qc (inject_Z (t0 + 500)); info := us_record |} _ _ _).
  - by vm_compute.
  - vm_compute. discriminate.
Defined.

Lemma resolver_rejects_other_versions_witness :
  get_ip_address "ipv5" None (world None t0 net_down)
  = (Raises (Exit 1),
     log_stderr "Error: invalid IP type specified. Must be 'ipv4' or 'ipv6'."
       (world None t0 net_down)).
Proof.
  refine (resolver_rejects_other_versions "ipv5" None _ _ _); discriminate.
Defined.


Lemma primary_answer_returned_and_cached_witness :
  let w := world None t0 (net_ok (JObj us_record)) in
  fst (@get_ip_info scalar_format "1.2.3.4" None false w) = Returns us_record
  ∧ calls (snd (@get_ip_info scalar_format "1.2.3.4" None false w))
    = [primary_request "1.2.3.4" None]
  ∧ stderr (snd (@get_ip_info scalar_format "1.2.3.4" None false w)) = []
  ∧ cache_file (snd (@get_ip_info scalar_format "1.2.3.4" None false w))
    = Some {[ "1.2.3.4" := {| timestamp := Q2Qc (inject_Z t0); info := us_record |} ]}.
Proof.
  cbn zeta.
  refine (primary_answer_returned_and_cached (fmt := scalar_format)
            "1.2.3.4" None false _
            (json_response (primary_url "1.2.3.4") 200 "OK" (JObj us_record))
            us_record (no_file_is_miss _ _ _) _ _ _ _); by vm_compute.
Defined.

Lemma transport_failure_is_terminal_witness :
  let w := world None t0 net_down in
  fst (@get_ip_info scalar_format "1.2.3.4" None false w) = Raises (Exit 1)
  ∧ stderr (snd (@get_ip_info scalar_format "1.2.3.4" None false w))
    = ["Network error fetching IP information: Connection refused"]
  ∧ calls (snd (@get_ip_info scalar_format "1.2.3.4" None false w))
    = [primary_request "1.2.3.4" None]
  ∧ cache_file (snd (@get_ip_info scalar_format "1.2.3.4" None false w)) = None.
Proof.
  cbn zeta.
  refine (transport_failure_is_terminal (fmt := scalar_format)
            "1.2.3.4" None false _ "Connection refused"
            (no_file_is_miss _ _ _) _); reflexivity.
Defined.

Lemma fallback_failure_is_terminal_witness :
  let w := world None t0 (net_limited_down "1.2.3.4") in
  fst (@get_ip_info scalar_format "1.2.3.4" None false w) = Raises (Exit 1)
  ∧ stderr (snd (@get_ip_info scalar_format "1.2.3.4" None false w))
    = ["Rate limit reached on ipapi.co, using fallback...";
       "Fallback service error: Connection refused"]
  ∧ calls (snd (@get_ip_info scalar_format "1.2.3.4" None false w))
    = [primary_request "1.2.3.4" None; fallback_request "1.2.3.4" None]
  ∧ cache_file (snd (@get_ip_info scalar_format "1.2.3.4" None false w)) = None.
Proof.
  cbn zeta.
  refine (fallback_failure_is_terminal (fmt := scalar_format)
            "1.2.3.4" None false _ (RequestException "Connection refused")
            (no_file_is_miss _ _ _) _ _); by vm_compute.
Defined.

(** The primary provider answers with a JSON list. *)
Lemma non_object_body_escapes_witness :
  let w := world None t0 (net_ok (JArr [])) in
  (∃ msg, fst (@get_ip_info scalar_format "1.2.3.4" None false w)
          = Raises (AttributeError msg))
  ∧ stderr (snd (@get_ip_info scalar_format "1.2.3.4" None false w)) = []
  ∧ cache_file (snd (@get_ip_info scalar_format "1.2.3.4" None false w)) = None.
Proof.
  cbn zeta.
  refine (non_object_body_escapes (fmt := scalar_format)
            "1.2.3.4" None false _
            (json_response (primary_url "1.2.3.4") 200 "OK" (JArr []))
            (JArr []) (no_file_is_miss _ _ _) _ _ _ _);
    first [by vm_compute|discriminate].
Defined.

Lemma lookup_no_request_exception_witness :
  is_RequestException (Exit 1) = false.
Proof.
  refine (lookup_no_request_exception (fmt := scalar_format)
            "1.2.3.4" None false (world None t0 net_down) (Exit 1) _).
  by vm_compute.
Defined.

(** A lookup from the provider, then a second lookup one reading later. *)
Lemma second_lookup_from_cache_witness :
  let w := world None t0 (net_ok (JObj us_record)) in
  let w1 := snd (@get_ip_info scalar_format "1.2.3.4" None false w) in
  fst (@get_ip_info scalar_format "1.2.3.4" None false w1) = Returns us_record
  ∧ calls (snd (@get_ip_info scalar_format "1.2.3.4" None false w1)) = calls w1.
Proof.
  cbn zeta.
  refine (second_lookup_from_cache (fmt := scalar_format)
            "1.2.3.4" None None false _ us_record
            (no_file_is_miss _ _ _) _ us_record_nonempty _).
  - by vm_compute.
  - vm_compute. discriminate.
Defined.

Lemma stale_entry_refreshed_witness :
  let e := {| timestamp := 0; info := fallback_answer |} in
  let w := world (Some {[ "1.2.3.4" := e ]}) t0 (net_ok (JObj us_record)) in
  fst (@get_ip_info scalar_format "1.2.3.4" None false w) = Returns us_record
  ∧ stored (snd (@get_ip_info scalar_format "1.2.3.4" None false w)) "1.2.3.4"
    = Some {| timestamp := Q2Qc (inject_Z (t0 + 1)); info := us_record |}.
Proof.
  cbn zeta.
  refine (stale_entry_refreshed (fmt := scalar_format) "1.2.3.4" None _
            {| timestamp := 0; info := fallback_answer |}
            (json_response (primary_url "1.2.3.4") 200 "OK" (JObj us_record))
            us_record _ _ _ _ _ _); by vm_compute.
Defined.

(** A target IP with a version that the resolver would refuse. *)
Lemma main_with_target_skips_resolver_witness :
  let c := console (world None t0 (net_ok (JObj us_record))) in
  fst (@main scalar_format "bogus" (Some "8.8.8.8") None false c) = Returns ()
  ∧ calls (env (snd (@main scalar_format "bogus" (Some "8.8.8.8") None false c)))
    = [primary_request "8.8.8.8" None].
Proof.
  cbn zeta.
  destruct (main_with_target_skips_resolver (fmt := scalar_format)
              "bogus" "ipv4" "8.8.8.8" None false
              (console (world None t0 (net_ok (JObj us_record)))))
    as (_ & Henv & Hres); [discriminate|].
  split.
  - exact (eq_trans Hres eq_refl).
  - exact (eq_trans (f_equal calls Henv) eq_refl).
Defined.


Lemma main_looks_up_resolved_address_witness :
  let body := "192.0.2.1" +:+ String (Ascii.ascii_of_nat 10) EmptyString in
  let c := console (world None t0 (net_all body (JObj us_record))) in
  fst (@main scalar_format "ipv4" None None false c) = Returns ()
  ∧ calls (env (snd (@main scalar_format "ipv4" None None false c)))
    = [echo_request "https://api.ipify.org" None; primary_request "192.0.2.1" None].
Proof.
  cbn zeta.
  destruct (main_looks_up_resolved_address (fmt := scalar_format)
              "ipv4" None None false
              (console (world None t0
                          (net_all ("192.0.2.1" +:+ String (Ascii.ascii_of_nat 10) EmptyString)
                             (JObj us_record))))
              "192.0.2.1")
    as (Henv & Hres); [reflexivity|by vm_compute|].
  split.
  - exact (eq_trans Hres eq_refl).
  - exact (eq_trans (f_equal calls Henv) eq_refl).
Defined.

(** The report for a record that has only a country and a city. *)
Lemma main_report_witness :
  let info : gmap string json := {[ "country_name" := JStr "US"; "city" := JStr "NY" ]} in
  let c := console (world None t0 (net_ok (JObj info))) in
  stdout (snd (@main scalar_format "ipv4" (Some "8.8.8.8") None false c))
  = [ "Using target IP: 8.8.8.8";
      report_header;
      "  Country  : US";
      "  City     : NY";
      "  Latitude : N/A";
      "  Longitude: N/A";
      "  ISP      : N/A";
      "  ASN      : N/A" ].
Proof.
  cbn zeta.
  destruct (main_report (fmt := scalar_format) "ipv4" "8.8.8.8" None false
              (console (world None t0
                          (net_ok (JObj {[ "country_name" := JStr "US";
                                           "city" := JStr "NY" ]}))))
              {[ "country_name" := JStr "US"; "city" := JStr "NY" ]})
    as (_ & Hout & _); [discriminate|by vm_compute|].
  exact (eq_trans Hout eq_refl).
Defined.

(** * Properties of the web application's helpers *)

Ltac unfold_P :=
  unfold mbind, IpUtils.P_bind, mret, IpUtils.P_ret, IpUtils.try_except,
    IpUtils.raise, IpUtils.print in *.

Lemma ip_utils_raise_for_status_ok resp s :
  is_http_error resp = false →
  IpUtils.raise_for_status resp s = (Returns (), s).
Proof.
  intros Hc. unfold IpUtils.raise_for_status.
  by rewrite http_error_msg_truthy, Hc.
Qed.

Lemma ip_utils_raise_for_status_error resp s :
  is_http_error resp = true →
  IpUtils.raise_for_status resp s
  = (Raises (HTTPError (http_error_msg resp) (Some resp)), s).
Proof.
  intros Hc. unfold IpUtils.raise_for_status.
  by rewrite http_error_msg_truthy, Hc.
Qed.

(** X22.  The helper [get_ip_address] never raises: every exception,
    whatever its class, is turned into a returned string.  It issues at
    most one request: the first echo endpoint of the version and no other
    (for "ipv6" there is no second endpoint), none for another version.
    Nothing is printed. *)
Theorem ip_utils_get_ip_address_total ip_type s :
  (∃ v, fst (IpUtils.get_ip_address ip_type s) = Returns v)
  ∧ IpUtils.requested (snd (IpUtils.get_ip_address ip_type s))
    = IpUtils.requested s
      ++ (if bool_decide (ip_type = "ipv6") then ["https://api6.ipify.org"]
          else if bool_decide (ip_type = "ipv4") then ["https://api.ipify.org"]
          else [])
  ∧ IpUtils.printed (snd (IpUtils.get_ip_address ip_type s)) = IpUtils.printed s
  ∧ (ip_type ≠ "ipv4" → ip_type ≠ "ipv6" →
     fst (IpUtils.get_ip_address ip_type s) = Returns IpUtils.invalid_type_msg).
Proof.
  unfold IpUtils.get_ip_address.
  assert (Hurl : ∀ url,
    (∃ v, fst (IpUtils.try_except
                 (response ← IpUtils.requests_get url;
                  _ ← IpUtils.raise_for_status response;
                  mret (strip (text response)))
                 (λ e, if is_RequestException e
                       then mret ("Error: Failed to retrieve IP address: " +:+ exn_str e)
                       else mret ("An unexpected error occurred: " +:+ exn_str e)) s)
          = Returns v)
    ∧ IpUtils.requested
        (snd (IpUtils.try_except
                (response ← IpUtils.requests_get url;
                 _ ← IpUtils.raise_for_status response;
                 mret (strip (text response)))
                (λ e, if is_RequestException e
                      then mret ("Error: Failed to retrieve IP address: " +:+ exn_str e)
                      else mret ("An unexpected error occurred: " +:+ exn_str e)) s))
      = IpUtils.requested s ++ [url]
    ∧ IpUtils.printed
        (snd (IpUtils.try_except
                (response ← IpUtils.requests_get url;
                 _ ← IpUtils.raise_for_status response;
                 mret (strip (text response)))
                (λ e, if is_RequestException e
                      then mret ("Error: Failed to retrieve IP address: " +:+ exn_str e)
                      else mret ("An unexpected error occurred: " +:+ exn_str e)) s))
      = IpUtils.printed s).
  { intros url. unfold IpUtils.requests_get. unfold_P.
    destruct (IpUtils.services s url) as [e|resp]; cbn beta iota zeta.
    - destruct (is_RequestException e); cbn; eauto.
    - destruct (is_http_error resp) eqn:Hr.
      + rewrite ip_utils_raise_for_status_error by done. cbn; eauto.
      + rewrite ip_utils_raise_for_status_ok by done. cbn; eauto. }
  destruct (bool_decide (ip_type = "ipv6")) eqn:H6.
  { destruct (Hurl "https://api6.ipify.org") as (Hv & Hr & Hp).
    split_and!; try done. intros _ Hne. by apply bool_decide_eq_true in H6. }
  destruct (bool_decide (ip_type = "ipv4")) eqn:H4.
  { destruct (Hurl "https://api.ipify.org") as (Hv & Hr & Hp).
    split_and!; try done. intros Hne. by apply bool_decide_eq_true in H4. }
  unfold_P. cbn. rewrite app_nil_r. split_and!; eauto.
Qed.

Section IpUtilsFacts.
Context {fmt : PyFormat}.

(** X23.  The helper [get_ip_info] never raises either: it returns the
    provider's dict, or a string for every failure, including a response
    that is not a JSON object.  It issues exactly one request and prints
    nothing. *)
Theorem ip_utils_get_ip_info_total ip s :
  (∃ v, fst (IpUtils.get_ip_info ip s) = Returns v)
  ∧ IpUtils.requested (snd (IpUtils.get_ip_info ip s))
    = IpUtils.requested s ++ ["http://ip-api.com/json/" +:+ ip]
  ∧ IpUtils.printed (snd (IpUtils.get_ip_info ip s)) = IpUtils.printed s.
Proof.
  unfold IpUtils.get_ip_info, IpUtils.requests_get, IpUtils.resp_json,
    IpUtils.as_dict. unfold_P.
  destruct (IpUtils.services s _) as [e|resp]; cbn beta iota zeta.
  - destruct (is_RequestException e); cbn; eauto.
  - destruct (is_http_error resp) eqn:Hr.
    + rewrite ip_utils_raise_for_status_error by done. cbn; eauto.
    + rewrite ip_utils_raise_for_status_ok by done. cbn beta iota zeta.
      destruct (json_body resp) as [[| | | | |d]|]; cbn beta iota zeta;
        try (cbn; by eauto).
      destruct (truthy (dict_get d "error")); cbn; eauto.
Qed.

(** X24.  When the echo request fails with a [RequestException],
    [display_ip_info] prints the failure text, which starts with
    "Error: Failed to retrieve IP address: ", and stops: the geolocation
    provider is not asked. *)
Theorem ip_utils_display_stops_on_address_failure ip_type url s e :
  (ip_type = "ipv6" ∧ url = "https://api6.ipify.org")
  ∨ (ip_type = "ipv4" ∧ url = "https://api.ipify.org") →
  endpoint_error (IpUtils.services s url) = Some e →
  fst (IpUtils.display_ip_info ip_type s) = Returns ()
  ∧ IpUtils.printed (snd (IpUtils.display_ip_info ip_type s))
    = IpUtils.printed s ++ ["Error: Failed to retrieve IP address: " +:+ exn_str e]
  ∧ IpUtils.requested (snd (IpUtils.display_ip_info ip_type s))
    = IpUtils.requested s ++ [url].
Proof.
  intros Hv He.
  assert (IpUtils.get_ip_address ip_type s
          = (Returns ("Error: Failed to retrieve IP address: " +:+ exn_str e),
             {| IpUtils.services := IpUtils.services s;
                IpUtils.requested := IpUtils.requested s ++ [url];
                IpUtils.printed := IpUtils.printed s |})) as Haddr.
  { unfold IpUtils.get_ip_address.
    assert ((if bool_decide (ip_type = "ipv6") then Some "https://api6.ipify.org"
             else if bool_decide (ip_type = "ipv4") then Some "https://api.ipify.org"
             else None) = Some url) as ->.
    { by destruct Hv as [[-> ->]|[-> ->]]. }
    unfold IpUtils.requests_get. unfold_P.
    destruct (IpUtils.services s url) as [x|resp];
      cbn [endpoint_error] in He; cbn beta iota zeta.
    - destruct (is_RequestException x) eqn:Hx; by simplify_eq.
    - destruct (is_http_error resp) eqn:Hr; [|done]. simplify_eq.
      by rewrite ip_utils_raise_for_status_error by done. }
  assert (IpUtils.contains "Error:"
            ("Error: Failed to retrieve IP address: " +:+ exn_str e) = true)
    as Hc by reflexivity.
  assert (IpUtils.display_ip_info ip_type s
          = (Returns (),
             {| IpUtils.services := IpUtils.services s;
                IpUtils.requested := IpUtils.requested s ++ [url];
                IpUtils.printed :=
                  IpUtils.printed s
                  ++ ["Error: Failed to retrieve IP address: " +:+ exn_str e] |}))
    as ->; [|done].
  unfold IpUtils.display_ip_info.
  unfold mbind at 1, IpUtils.P_bind at 1. rewrite Haddr. by rewrite Hc.
Qed.

(** X25.  When [get_ip_info] reports a failure with a text that does not
    contain "Error:" (its "Error from ipapi.co: ..." and "An unexpected
    error occurred: ..." texts, unless the inserted message contains it),
    [display_ip_info] does not recognise it as an error: it goes on to
    print the header and then raises an [AttributeError], because it calls
    [get] on the string. *)
Theorem ip_utils_display_crashes_on_unrecognised_failure ip_type s ip s1 msg s2 :
  IpUtils.get_ip_address ip_type s = (Returns ip, s1) →
  IpUtils.contains "Error:" ip = false →
  IpUtils.get_ip_info ip
    (snd (IpUtils.print
            ("Your public " +:+ upper ip_type +:+ " address is: " +:+ ip) s1))
  = (Returns (inl msg), s2) →
  IpUtils.contains "Error:" msg = false →
  msg ≠ EmptyString →
  fst (IpUtils.display_ip_info ip_type s)
  = Raises (AttributeError "'str' object has no attribute 'get'")
  ∧ IpUtils.printed (snd (IpUtils.display_ip_info ip_type s))
    = IpUtils.printed s2
      ++ [String (Ascii.ascii_of_nat 10) "Geolocation and ISP Information:"].
Proof.
  intros Haddr Hip Hinfo Hmsg Hne.
  assert (IpUtils.display_ip_info ip_type s
          = (Raises (AttributeError "'str' object has no attribute 'get'"),
             {| IpUtils.services := IpUtils.services s2;
                IpUtils.requested := IpUtils.requested s2;
                IpUtils.printed :=
                  IpUtils.printed s2
                  ++ [String (Ascii.ascii_of_nat 10)
                        "Geolocation and ISP Information:"] |}))
    as ->; [|done].
  unfold IpUtils.display_ip_info.
  unfold mbind at 1, IpUtils.P_bind at 1. rewrite Haddr, Hip.
  unfold mbind at 1, IpUtils.P_bind at 1.
  destruct (IpUtils.print _ s1) as [r s1'] eqn:Hpr.
  assert (r = Returns ()) as -> by (unfold IpUtils.print in Hpr; by simplify_eq).
  cbn [snd] in Hinfo.
  unfold mbind at 1, IpUtils.P_bind at 1. rewrite Hinfo.
  cbn [IpUtils.is_error_text IpUtils.info_truthy]. rewrite Hmsg.
  unfold str_truthy. rewrite bool_decide_eq_false_2 by done. cbn [negb].
  unfold_P. by cbn.
Qed.

End IpUtilsFacts.

(** No service can be reached. *)
Lemma ip_utils_display_stops_on_address_failure_witness :
  fst (@IpUtils.display_ip_info scalar_format "ipv4" (helper_env srv_down))
  = Returns ()
  ∧ IpUtils.printed
      (snd (@IpUtils.display_ip_info scalar_format "ipv4" (helper_env srv_down)))
    = ["Error: Failed to retrieve IP address: Connection refused"]
  ∧ IpUtils.requested
      (snd (@IpUtils.display_ip_info scalar_format "ipv4" (helper_env srv_down)))
    = ["https://api.ipify.org"].
Proof.
  refine (ip_utils_display_stops_on_address_failure (fmt := scalar_format)
            "ipv4" "https://api.ipify.org" (helper_env srv_down)
            (RequestException "Connection refused") _ _).
  - by right.
  - reflexivity.
Defined.

(** The provider reports an application-level error. *)
Lemma ip_utils_display_crashes_on_unrecognised_failure_witness :
  let srv := srv_all "192.0.2.1" (JObj {[ "error" := JStr "Invalid IP address" ]}) in
  fst (@IpUtils.get_ip_info scalar_format "192.0.2.1" (helper_env srv))
  = Returns (inl "Error from ipapi.co: Invalid IP address")
  ∧ fst (@IpUtils.display_ip_info scalar_format "ipv4" (helper_env srv))
    = Raises (AttributeError "'str' object has no attribute 'get'")
  ∧ IpUtils.printed
      (snd (@IpUtils.display_ip_info scalar_format "ipv4" (helper_env srv)))
    = ["Your public IPV4 address is: 192.0.2.1";
       String (Ascii.ascii_of_nat 10) "Geolocation and ISP Information:"].
Proof.
  cbn zeta. split; [by vm_compute|].
  destruct (ip_utils_display_crashes_on_unrecognised_failure (fmt := scalar_format)
              "ipv4"
              (helper_env (srv_all "192.0.2.1"
                             (JObj {[ "error" := JStr "Invalid IP address" ]})))
              "192.0.2.1"
              (snd (IpUtils.get_ip_address "ipv4"
                      (helper_env (srv_all "192.0.2.1"
                                     (JObj {[ "error" := JStr "Invalid IP address" ]})))))
              "Error from ipapi.co: Invalid IP address"
              (snd (@IpUtils.get_ip_info scalar_format "192.0.2.1"
                      (snd (IpUtils.print "Your public IPV4 address is: 192.0.2.1"
                              (snd (IpUtils.get_ip_address "ipv4"
                                      (helper_env (srv_all "192.0.2.1"
                                                     (JObj {[ "error" := JStr "Invalid IP address" ]})))))))))
              eq_refl eq_refl)
    as [Hres Hout]; [by vm_compute|reflexivity|discriminate|].
  split; [exact Hres|]. exact (eq_trans Hout eq_refl).
Defined.
